(** * News analyzer: the analysis pipeline of [app.py]

    A shallow embedding of [perform_nlp_analysis], [process_news_data],
    [analyze_topic] and [latest_news], and the properties the
    specification states about them; then the account routes [register],
    [login], [logout] and [profile] and the two API routes behind
    [login_required].

    Conventions of the embedding.
    - A Python [str] is a [string]; one [ascii] stands for one character.
    - A Python [float] is a binary64 primitive float; [0.95] is the float the
      literal denotes, and [<] is the IEEE comparison (false on a NaN).
    - A dict read only through [.get(key)] is a record of [option] fields:
      [None] is what [.get] returns for an absent key and for a JSON null.
    - The two models and the HTTP client are external collaborators: they
      are the fields of the class [Collaborators], and every call made to
      one of them is recorded, in order, in a log of [event]s. *)

From Stdlib Require Import Floats ZArith.
From stdpp Require Import gmap strings list.

Set Warnings "-inexact-float".
Open Scope string_scope.
Open Scope list_scope.

(** ** Data model *)

(** The dict a sentiment classifier returns: [{'label': ..., 'score': ...}]. *)
Record Sentiment : Type := mkSentiment { label : string; score : float }.

(** One entity of [doc.ents]: [ent.text] and [ent.label_]. *)
Record Span : Type := mkSpan { ent_text : string; ent_label : string }.

(** The exceptions the handlers tell apart: [requests.exceptions.RequestException]
    (and its subclasses) and every other [Exception]; [str(e)] is the message. *)
Inductive exn : Type :=
  | RequestException (msg : string)
  | OtherException (msg : string).

(** An article of the news service, read with [.get] only. *)
Record Article : Type := mkArticle {
  art_title : option string;
  art_content : option string;
  art_description : option string;
  art_publishedAt : option string
}.

(** The value of [perform_nlp_analysis]. *)
Record NlpResult : Type := mkNlpResult {
  nlp_sentiment : Sentiment;
  nlp_entities : gmap string (list string)
}.

(** One element of the list [process_news_data] returns. *)
Record AnalyzedArticle : Type := mkAnalyzedArticle {
  out_id : nat;
  out_title : option string;
  out_content : string;
  out_published_at : option string;
  out_sentiment : Sentiment;
  out_entities : gmap string (list string)
}.

(** A key read with [.get(key, default)]: absent, JSON null, or a value. *)
Inductive field (A : Type) : Type :=
  | Absent
  | Null
  | Present (a : A).
Arguments Absent {A}.
Arguments Null {A}.
Arguments Present {A} a.

(** The JSON object of the news service. [status] is [None] when the key is
    absent, null or not a string: each of them differs from ['ok']. *)
Record Payload : Type := mkPayload {
  status : option string;
  message : field string;
  articles : field (list Article)
}.

(** What [requests.get] returns: the HTTP status code and what
    [response.json()] does, raise or return the payload. *)
Record Response : Type := mkResponse {
  status_code : Z;
  json : exn + Payload
}.

(** The part of the Flask request and of [current_user] the handler reads. *)
Record Request : Type := mkRequest {
  keyword : option string;
  user_language : option string
}.

(** What a handler returns: [jsonify({"error": msg}), code] or
    [jsonify(analyzed_articles)] with the default status 200. *)
Inductive HttpResult : Type :=
  | JsonError (code : Z) (error : string)
  | JsonArticles (analyzed_articles : list AnalyzedArticle).

(** Calls, in the order they are made. *)
Inductive event : Type :=
  | HttpGet (api_url : string)
  | CallAnalyze (text : string)
  | CallSentiment (input : string)
  | CallNer (input : string).

(** The external collaborators. [nlp_ner] is [None] when [spacy.load]
    failed at startup; a loaded recognizer is taken under its contract, a
    sequence of entities for every text: an exception of [nlp_ner(text)],
    which [perform_nlp_analysis] does not catch, is outside the model.
    [http_error_message] is the text of the [HTTPError] that
    [raise_for_status] raises. *)
Class Collaborators : Type := mkCollaborators {
  sentiment_pipeline : string -> exn + list Sentiment;
  nlp_ner : option (string -> list Span);
  requests_get : string -> exn + Response;
  http_error_message : Response -> string
}.

(** ** Logging monad, and exceptions on top of it *)

Definition W (A : Type) : Type := (list event * A)%type.

Definition W_ret {A} (a : A) : W A := ([], a).

Definition W_bind {A B} (m : W A) (k : A -> W B) : W B :=
  (m.1 ++ (k m.2).1, (k m.2).2).

Definition tell (e : event) : W unit := ([e], tt).

Definition trace {A} (m : W A) : list event := m.1.
Definition value {A} (m : W A) : A := m.2.

Declare Scope w_scope.
Delimit Scope w_scope with W.
Notation "x <- m ;; k" := (W_bind m (fun x => k))
  (at level 100, m at next level, right associativity) : w_scope.
Notation "m ;;; k" := (W_bind m (fun _ => k))
  (at level 100, right associativity) : w_scope.

(** A computation that may raise. *)
Definition M (A : Type) : Type := W (exn + A).

Definition M_ret {A} (a : A) : M A := W_ret (inr a).

Definition raise {A} (e : exn) : M A := W_ret (inl e).

Definition lift {A} (m : W A) : M A := W_bind m (fun a => W_ret (inr a)).

Definition of_outcome {A} (r : exn + A) : M A := W_ret r.

Definition M_bind {A B} (m : M A) (k : A -> M B) : M B :=
  W_bind m (fun r => match r with inl e => W_ret (inl e) | inr a => k a end).

(** [try: body except e: handler e]. *)
Definition try_except {A} (body : M A) (handler : exn -> A) : W A :=
  W_bind body (fun r => match r with inl e => W_ret (handler e) | inr a => W_ret a end).

Declare Scope m_scope.
Delimit Scope m_scope with M.
Notation "x <- m ;; k" := (M_bind m (fun x => k))
  (at level 100, m at next level, right associativity) : m_scope.
Notation "m ;;; k" := (M_bind m (fun _ => k))
  (at level 100, right associativity) : m_scope.

(** ** Python primitives *)

(** [text[:n]]: the first [n] characters, the whole text when it is shorter. *)
Fixpoint slice_to (n : nat) (text : string) : string :=
  match n, text with
  | S n', String c rest => String c (slice_to n' rest)
  | _, _ => EmptyString
  end.

(** Truth value of [None] and of a [str]. *)
Definition truthy (v : option string) : bool :=
  match v with
  | Some (String _ _) => true
  | _ => false
  end.

(** [a or b]: [a] when it is truthy, [b] otherwise. *)
Definition py_or (a b : option string) : option string :=
  if truthy a then a else b.

(** [a or ""], whose value is always a [str]. *)
Definition py_or_empty (a : option string) : string :=
  match a with
  | Some (String c rest) => String c rest
  | _ => ""
  end.

(** [d.get(key, default)] on a key that holds a string or null: Python's
    [None] is [None] here. *)
Definition get_default {A} (f : field A) (default : A) : option A :=
  match f with
  | Absent => Some default
  | Null => None
  | Present a => Some a
  end.

(** [f"{v}"] for a string or [None]. *)
Definition format_str (v : option string) : string :=
  match v with
  | Some s => s
  | None => "None"
  end.

(** [list(set(l))]: the distinct strings of [l], in the order the set yields. *)
Definition list_of_set (l : list string) : list string :=
  elements (list_to_set (C:=gset string) l).

(** ** [perform_nlp_analysis] *)

Definition threshold : float := 0.95%float.

Definition UNKNOWN : Sentiment := {| label := "UNKNOWN"; score := 0.0%float |}.

(** [entities = {"PERSON": [], "ORG": [], "GPE": []}] *)
Definition initial_entities : gmap string (list string) :=
  <["PERSON" := []]> (<["ORG" := []]> (<["GPE" := []]> ∅)).

(** The body of [for ent in doc.ents]. *)
Definition add_entity (entities : gmap string (list string)) (ent : Span)
  : gmap string (list string) :=
  match entities !! ent_label ent with
  | Some texts => <[ent_label ent := texts ++ [ent_text ent]]> entities
  | None => entities
  end.

(** [for key in entities: entities[key] = list(set(entities[key]))] *)
Definition dedup_entities (entities : gmap string (list string))
  : gmap string (list string) :=
  list_of_set <$> entities.

Section Pipeline.
Context `{Collaborators}.

(** The [try] block: the classifier on [text[:512]] and the threshold; every
    exception, also the [IndexError] of [[0]] on an empty list, gives
    [UNKNOWN]. *)
Definition sentiment_of (text : string) : W Sentiment :=
  (tell (CallSentiment (slice_to 512 text));;;
   match sentiment_pipeline (slice_to 512 text) with
   | inr (sentiment_result :: _) =>
       if PrimFloat.ltb (score sentiment_result) threshold
       then W_ret {| label := "NEUTRAL"; score := score sentiment_result |}
       else W_ret sentiment_result
   | inr [] => W_ret UNKNOWN
   | inl _ => W_ret UNKNOWN
   end)%W.

(** The entity block. *)
Definition entities_of (text : string) : W (gmap string (list string)) :=
  match nlp_ner with
  | Some ner =>
      (tell (CallNer text);;;
       W_ret (dedup_entities (fold_left add_entity (ner text) initial_entities)))%W
  | None => W_ret initial_entities
  end.

Definition perform_nlp_analysis (text : string) : W NlpResult :=
  (tell (CallAnalyze text);;;
   sentiment_result <- sentiment_of text;;
   entities <- entities_of text;;
   W_ret {| nlp_sentiment := sentiment_result; nlp_entities := entities |})%W.

(** ** [process_news_data] *)

(** Truth value of a [str]. *)
Definition nonempty (s : string) : bool :=
  match s with
  | EmptyString => false
  | String _ _ => true
  end.

(** [article_data.get('content') or article_data.get('description') or ""] *)
Definition resolve_content (article_data : Article) : string :=
  py_or_empty (py_or (art_content article_data) (art_description article_data)).

(** The loop [for i, article_data in enumerate(news_data)], from index [i]
    on, with the list [analyzed_articles] built so far. *)
Fixpoint process_loop (i : nat) (news_data : list Article)
    (analyzed_articles : list AnalyzedArticle) : W (list AnalyzedArticle) :=
  match news_data with
  | [] => W_ret analyzed_articles
  | article_data :: rest =>
      let content := resolve_content article_data in
      if negb (nonempty content) then process_loop (S i) rest analyzed_articles
      else
        (analysis_results <- perform_nlp_analysis content;;
         process_loop (S i) rest
           (analyzed_articles ++
              [ {| out_id := i;
                   out_title := art_title article_data;
                   out_content := content;
                   out_published_at := art_publishedAt article_data;
                   out_sentiment := nlp_sentiment analysis_results;
                   out_entities := nlp_entities analysis_results |} ]))%W
  end.

Definition process_news_data (news_data : list Article) : W (list AnalyzedArticle) :=
  process_loop 0 news_data [].

(** ** The request handlers *)

(** [response.raise_for_status()]: an [HTTPError], a [RequestException],
    on a status code from 400 to 599. *)
Definition raise_for_status (response : Response) : M unit :=
  if ((400 <=? status_code response) && (status_code response <? 600))%Z
  then raise (RequestException (http_error_message response))
  else M_ret tt.

(** [requests.get(api_url)] *)
Definition http_get (api_url : string) : M Response :=
  W_bind (tell (HttpGet api_url)) (fun _ => of_outcome (requests_get api_url)).

(** [enumerate(None)] in [process_news_data] raises a [TypeError]. *)
Definition not_iterable : exn := OtherException "'NoneType' object is not iterable".

Definition analyze_topic (request : Request) : W HttpResult :=
  let keyword := default "default topic" (keyword request) in
  let api_key := "Enter Your API Here" in
  let lang_code :=
    if bool_decide (user_language request = Some "Hindi") then "hi" else "en" in
  let api_url :=
    "https://newsapi.org/v2/everything?apiKey=" +:+ api_key +:+ "&q=" +:+ keyword
      +:+ "&language=" +:+ lang_code in
  try_except
    (response <- http_get api_url;;
     raise_for_status response;;;
     response_data <- of_outcome (json response);;
     if bool_decide (status response_data ≠ Some "ok") then
       let error_message := get_default (message response_data) "Unknown API error" in
       M_ret (JsonError 400 ("News API Error: " +:+ format_str error_message))
     else
       match get_default (articles response_data) [] with
       | Some news_data =>
           analyzed_articles <- lift (process_news_data news_data);;
           M_ret (JsonArticles analyzed_articles)
       | None => raise not_iterable
       end)%M
    (fun e =>
       match e with
       | RequestException msg =>
           JsonError 500 ("Failed to connect to the news service: " +:+ msg)
       | OtherException msg =>
           JsonError 500 ("An internal server error occurred: " +:+ msg)
       end).

Definition latest_news : W HttpResult :=
  let api_key := "Enter Your API Here" in
  let api_url :=
    "https://newsapi.org/v2/everything?apiKey=" +:+ api_key
      +:+ "&q=news&language=en&sortBy=publishedAt" in
  try_except
    (response <- http_get api_url;;
     raise_for_status response;;;
     response_data <- of_outcome (json response);;
     if bool_decide (status response_data ≠ Some "ok") then
       let error_message := get_default (message response_data) "Unknown API error" in
       M_ret (JsonError 400 ("News API Error: " +:+ format_str error_message))
     else
       match get_default (articles response_data) [] with
       | Some news_data =>
           analyzed_articles <- lift (process_news_data news_data);;
           M_ret (JsonArticles analyzed_articles)
       | None => raise not_iterable
       end)%M
    (fun e =>
       match e with
       | RequestException msg =>
           JsonError 500 ("Failed to connect to the news service: " +:+ msg)
       | OtherException msg =>
           JsonError 500 ("An internal server error occurred: " +:+ msg)
       end).

End Pipeline.

(** ** Concrete collaborators, for the examples *)

(** A classifier that answers [answer] on every input, a recognizer that
    finds [spans] in every text ([None]: not loaded), and a news service
    that answers [reply] to every request. *)
Definition fixed_collaborators (answer : exn + list Sentiment)
    (spans : option (list Span)) (reply : exn + Response) : Collaborators :=
  {| sentiment_pipeline := fun _ => answer;
     nlp_ner := (fun found (_ : string) => found) <$> spans;
     requests_get := fun _ => reply;
     http_error_message := fun response =>
       if (status_code response <? 500)%Z then "Client Error" else "Server Error" |}.

Definition POSITIVE (s : float) : Sentiment := {| label := "POSITIVE"; score := s |}.

Definition article_A : Article :=
  {| art_title := Some "A";
     art_content := Some "Great news for the economy";
     art_description := None;
     art_publishedAt := Some "2024-01-01" |}.

Definition article_B : Article :=
  {| art_title := Some "B";
     art_content := Some "";
     art_description := Some "";
     art_publishedAt := None |}.

Definition quota_exceeded : Payload :=
  {| status := Some "error"; message := Present "quota exceeded"; articles := Absent |}.

Definition no_reply : exn + Response := inl (RequestException "connection refused").

Definition economy : Request := {| keyword := Some "economy"; user_language := None |}.


(** The classifier answers POSITIVE with score [s]; no recognizer. *)
Definition positive_models (s : float) : Collaborators :=
  fixed_collaborators (inr [POSITIVE s]) None no_reply.

(** The classifier raises; the recognizer finds four entities. *)
Definition failing_classifier : Collaborators :=
  fixed_collaborators (inl (OtherException "inference failed"))
    (Some [mkSpan "Paris" "GPE"; mkSpan "Bob" "PERSON"; mkSpan "Paris" "GPE";
           mkSpan "Monday" "DATE"])
    no_reply.

(** The news service answers [quota_exceeded] with the HTTP status [code]. *)
Definition rejecting_service (code : Z) : Collaborators :=
  fixed_collaborators (inr [POSITIVE 0.97%float]) None
    (inr {| status_code := code; json := inr quota_exceeded |}).

(** The news service answers 200 with the payload [response_data]. *)
Definition answering_service (response_data : Payload) : Collaborators :=
  fixed_collaborators (inr [POSITIVE 0.97%float]) None
    (inr {| status_code := 200; json := inr response_data |}).

Definition two_articles : Payload :=
  {| status := Some "ok"; message := Absent; articles := Present [article_B; article_A] |}.

Definition no_articles : Payload :=
  {| status := Some "ok"; message := Absent; articles := Absent |}.


(** ** The specification's side *)

(** The texts handed to [perform_nlp_analysis], in call order. *)
Definition analyzer_calls (log : list event) : list string :=
  omap (fun e => match e with CallAnalyze text => Some text | _ => None end) log.

(** The inputs of the sentiment classifier, in call order. *)
Definition classifier_inputs (log : list event) : list string :=
  omap (fun e => match e with CallSentiment input => Some input | _ => None end) log.

(** The inputs of the entity recognizer, in call order. *)
Definition recognizer_inputs (log : list event) : list string :=
  omap (fun e => match e with CallNer input => Some input | _ => None end) log.

(** The URLs requested from the news service, in call order. *)
Definition http_requests (log : list event) : list string :=
  omap (fun e => match e with HttpGet api_url => Some api_url | _ => None end) log.

(** An article has usable text: [content] or [description] is a non-empty
    string. *)
Definition has_text (article_data : Article) : bool :=
  truthy (art_content article_data) || truthy (art_description article_data).

(** The articles with usable text, each with its index in the input, the
    first index being [i]. *)
Fixpoint surviving_from (i : nat) (news_data : list Article) : list (nat * Article) :=
  match news_data with
  | [] => []
  | article_data :: rest =>
      if has_text article_data then (i, article_data) :: surviving_from (S i) rest
      else surviving_from (S i) rest
  end.

Definition surviving (news_data : list Article) : list (nat * Article) :=
  surviving_from 0 news_data.

(** The output article [o] with its [id] moved [n] places on. *)
Definition shift_id (n : nat) (o : AnalyzedArticle) : AnalyzedArticle :=
  {| out_id := n + out_id o;
     out_title := out_title o;
     out_content := out_content o;
     out_published_at := out_published_at o;
     out_sentiment := out_sentiment o;
     out_entities := out_entities o |}.

(** A string of [n] characters [c]. *)
Fixpoint replicate_char (n : nat) (c : Ascii.ascii) : string :=
  match n with
  | O => EmptyString
  | S n' => String c (replicate_char n' c)
  end.

(** What a handler's run may look like: a 400 answer comes with no analysis
    at all, any other error answer has the code 500, and an answer with
    articles comes with one analysis per article answered, of that article's
    text, in order. *)
Definition rejects_before_analysis (outcome : W HttpResult) : Prop :=
  match value outcome with
  | JsonError code _ =>
      (code = 400 /\ analyzer_calls (trace outcome) = [])%Z \/ (code = 500)%Z
  | JsonArticles analyzed_articles =>
      analyzer_calls (trace outcome) = out_content <$> analyzed_articles
  end.

(** Collaborators that tell what they were given: the classifier answers
    POSITIVE on an input of more than 512 characters and NEGATIVE otherwise,
    with full confidence; the recognizer finds one ORG entity, the whole
    text it was given. *)
Definition telling_models : Collaborators :=
  {| sentiment_pipeline := fun input =>
       inr [ {| label := if (512 <? String.length input)%nat
                         then "POSITIVE" else "NEGATIVE";
                score := 1.0 |} ];
     nlp_ner := Some (fun text => [ {| ent_text := text; ent_label := "ORG" |} ]);
     requests_get := fun _ => no_reply;
     http_error_message := fun _ => "HTTP error" |}.

(** A text of 512 characters. *)
Definition long_text : string := replicate_char 512 (Ascii.ascii_of_nat 97).

(** The three entity categories. *)
Definition categories : gset string := {[ "PERSON"; "ORG"; "GPE" ]}.

(** The URL [analyze_topic] requests, and the one [latest_news] requests. *)
Definition analyze_api_url (request : Request) : string :=
  "https://newsapi.org/v2/everything?apiKey=" +:+ "Enter Your API Here" +:+ "&q="
    +:+ default "default topic" (keyword request) +:+ "&language="
    +:+ (if bool_decide (user_language request = Some "Hindi") then "hi" else "en").

Definition latest_api_url : string :=
  "https://newsapi.org/v2/everything?apiKey=" +:+ "Enter Your API Here"
    +:+ "&q=news&language=en&sortBy=publishedAt".

(** An HTTP status code on which [raise_for_status] raises. *)
Definition error_status (code : Z) : bool := ((400 <=? code) && (code <? 600))%Z.

(** The reply [reply] is a response that passes [raise_for_status] and whose
    body parses to [response_data]. *)
Definition replied (reply : exn + Response) (response_data : Payload) : Prop :=
  exists response,
    reply = inr response /\ error_status (status_code response) = false /\
    json response = inr response_data.

Section Expected.
Context `{Collaborators}.

(** The dict expected for the article [ia.2] met at index [ia.1]. *)
Definition emitted (ia : nat * Article) : AnalyzedArticle :=
  let analysis_results := value (perform_nlp_analysis (resolve_content ia.2)) in
  {| out_id := ia.1;
     out_title := art_title ia.2;
     out_content := resolve_content ia.2;
     out_published_at := art_publishedAt ia.2;
     out_sentiment := nlp_sentiment analysis_results;
     out_entities := nlp_entities analysis_results |}.

(** The error taxonomy: what a handler is expected to answer, and which
    analyses it runs, once the news service has replied [reply]. *)
Definition expected_outcome (reply : exn + Response) : W HttpResult :=
  match reply with
  | inl (RequestException msg) =>
      W_ret (JsonError 500 ("Failed to connect to the news service: " +:+ msg))
  | inl (OtherException msg) =>
      W_ret (JsonError 500 ("An internal server error occurred: " +:+ msg))
  | inr response =>
      if error_status (status_code response) then
        W_ret (JsonError 500 ("Failed to connect to the news service: "
                                +:+ http_error_message response))
      else
        match json response with
        | inl (RequestException msg) =>
            W_ret (JsonError 500 ("Failed to connect to the news service: " +:+ msg))
        | inl (OtherException msg) =>
            W_ret (JsonError 500 ("An internal server error occurred: " +:+ msg))
        | inr response_data =>
            if bool_decide (status response_data = Some "ok") then
              match articles response_data with
              | Absent => W_ret (JsonArticles [])
              | Present news_data =>
                  (trace (process_news_data news_data),
                   JsonArticles (value (process_news_data news_data)))
              | Null =>
                  W_ret (JsonError 500
                    "An internal server error occurred: 'NoneType' object is not iterable")
              end
            else
              match message response_data with
              | Absent => W_ret (JsonError 400 "News API Error: Unknown API error")
              | Null => W_ret (JsonError 400 "News API Error: None")
              | Present upstream => W_ret (JsonError 400 ("News API Error: " +:+ upstream))
              end
        end
  end.

End Expected.

(** ** Accounts: the [User] table, the session and the routes around them *)

(** A row of the [User] table. [email] and [password_hash] are not
    nullable; [language] is, and [interests] always holds a string. *)
Record User : Type := mkUser {
  user_id : nat;
  email : string;
  password_hash : string;
  language : option string;
  interests : string
}.

(** The two functions of [werkzeug.security], with what they do on a
    missing password left to them: each may raise. *)
Class Hasher : Type := mkHasher {
  generate_password_hash : option string -> exn + string;
  check_password_hash : string -> option string -> exn + bool
}.

(** The table, in row order, and the user id the session holds. *)
Record Site : Type := mkSite {
  users : list User;
  session_user : option nat
}.

Inductive method : Type := GET | POST.

(** The form fields the routes read: [request.form.get] gives [None] for a
    missing field, [request.form.getlist] the list of values. *)
Record Form : Type := mkForm {
  form_email : option string;
  form_password : option string;
  form_language : option string;
  form_interests : list string
}.

(** What a route answers: a redirect to an endpoint, a rendered template
    (with the [user] passed to it), what [login_required] answers to a
    visitor who is not logged in, or the 500 of an uncaught exception. *)
Inductive Reply : Type :=
  | Redirect (endpoint : string)
  | RenderTemplate (template : string) (user : option User)
  | Unauthorized
  | InternalServerError.

(** A route's effect: the site after it, the messages the route's own code
    flashed, each with its category, and its answer. What [login_required]
    itself does for a visitor who is not logged in is all in [Unauthorized]. *)
Record Outcome : Type := mkOutcome {
  site_after : Site;
  flashed : list (string * string);
  reply : Reply
}.

(** [User.query.filter_by(email=email).first()]; no row has a null email. *)
Definition find_by_email (form_value : option string) (table : list User) : option User :=
  match form_value with
  | Some e => snd <$> list_find (fun u => email u = e) table
  | None => None
  end.

(** [load_user]: [db.session.get(User, int(user_id))]. *)
Definition load_user (uid : nat) (table : list User) : option User :=
  snd <$> list_find (fun u => user_id u = uid) table.

(** [current_user]: the row the session names, if any. *)
Definition current_user (site : Site) : option User :=
  match session_user site with
  | Some uid => load_user uid (users site)
  | None => None
  end.

(** The integer primary key SQLite gives a new row: one more than the
    largest in use. *)
Definition next_id (table : list User) : nat := S (max_list (user_id <$> table)).

(** The row an [UPDATE] of the user [uid] leaves in place of [u]. *)
Definition update_user (uid : nat) (change : User -> User) (u : User) : User :=
  if bool_decide (user_id u = uid) then change u else u.

Section Routes.
Context `{Hasher}.

Definition register (site : Site) (m : method) (form : Form) : Outcome :=
  match current_user site with
  | Some _ =>
      {| site_after := site; flashed := []; reply := Redirect "interactive_dashboard" |}
  | None =>
      match m with
      | POST =>
          match find_by_email (form_email form) (users site) with
          | Some _ =>
              {| site_after := site;
                 flashed := [("Email address already registered.", "warning")];
                 reply := Redirect "register" |}
          | None =>
              match generate_password_hash (form_password form), form_email form with
              | inl _, _ =>
                  {| site_after := site; flashed := []; reply := InternalServerError |}
              | inr _, None =>
                  {| site_after := site; flashed := []; reply := InternalServerError |}
              | inr hashed, Some e =>
                  let new_user :=
                    {| user_id := next_id (users site);
                       email := e;
                       password_hash := hashed;
                       language := Some "English";
                       interests := "Technology,Economy" |} in
                  {| site_after := {| users := users site ++ [new_user];
                                      session_user := session_user site |};
                     flashed := [("Registration successful! Please log in.", "success")];
                     reply := Redirect "login" |}
              end
          end
      | GET =>
          {| site_after := site; flashed := [];
             reply := RenderTemplate "register.html" None |}
      end
  end.

Definition login (site : Site) (m : method) (form : Form) : Outcome :=
  match current_user site with
  | Some _ =>
      {| site_after := site; flashed := []; reply := Redirect "interactive_dashboard" |}
  | None =>
      match m with
      | POST =>
          let invalid :=
            {| site_after := site;
               flashed := [("Invalid email or password.", "danger")];
               reply := RenderTemplate "login.html" None |} in
          match find_by_email (form_email form) (users site) with
          | Some user =>
              match check_password_hash (password_hash user) (form_password form) with
              | inl _ =>
                  {| site_after := site; flashed := []; reply := InternalServerError |}
              | inr true =>
                  {| site_after := {| users := users site;
                                      session_user := Some (user_id user) |};
                     flashed := [];
                     reply := Redirect "interactive_dashboard" |}
              | inr false => invalid
              end
          | None => invalid
          end
      | GET =>
          {| site_after := site; flashed := [];
             reply := RenderTemplate "login.html" None |}
      end
  end.

End Routes.

Definition logout (site : Site) : Outcome :=
  match current_user site with
  | Some _ =>
      {| site_after := {| users := users site; session_user := None |};
         flashed := []; reply := Redirect "index" |}
  | None => {| site_after := site; flashed := []; reply := Unauthorized |}
  end.

Definition profile (site : Site) (m : method) (form : Form) : Outcome :=
  match current_user site with
  | Some user =>
      match m with
      | POST =>
          let change u :=
            {| user_id := user_id u;
               email := email u;
               password_hash := password_hash u;
               language := form_language form;
               interests := String.concat "," (form_interests form) |} in
          {| site_after :=
               {| users := update_user (user_id user) change <$> users site;
                  session_user := session_user site |};
             flashed := [("Profile updated successfully!", "success")];
             reply := Redirect "profile" |}
      | GET =>
          {| site_after := site; flashed := [];
             reply := RenderTemplate "profile.html" (Some user) |}
      end
  | None => {| site_after := site; flashed := []; reply := Unauthorized |}
  end.

(** What an API route answers: the answer of [login_required], or the
    handler's. *)
Inductive ApiReply : Type :=
  | ApiUnauthorized
  | ApiAnswer (result : HttpResult).

Section ApiRoutes.
Context `{Collaborators}.

(** [/api/analyze] behind [login_required], with [request.args.get('keyword')]
    and [current_user.language] as the handler reads them. *)
Definition api_analyze (site : Site) (keyword_arg : option string) : W ApiReply :=
  match current_user site with
  | Some user =>
      (result <- analyze_topic {| keyword := keyword_arg;
                                  user_language := language user |};;
       W_ret (ApiAnswer result))%W
  | None => W_ret ApiUnauthorized
  end.

(** [/api/latest] behind [login_required]. *)
Definition api_latest (site : Site) : W ApiReply :=
  match current_user site with
  | Some _ => (result <- latest_news;; W_ret (ApiAnswer result))%W
  | None => W_ret ApiUnauthorized
  end.

End ApiRoutes.

(** Emails and ids are each distinct over the table. *)
Definition distinct_accounts (site : Site) : Prop :=
  NoDup (email <$> users site) /\ NoDup (user_id <$> users site).

(** A hasher for the examples: the hash of [p] is [p] behind a fixed prefix;
    a missing password raises. *)
Definition toy_hasher : Hasher :=
  {| generate_password_hash := fun password =>
       match password with
       | Some p => inr ("toy$" +:+ p)
       | None => inl (OtherException "'NoneType' object has no attribute 'encode'")
       end;
     check_password_hash := fun pwhash password =>
       match password with
       | Some p => inr (bool_decide (pwhash = "toy$" +:+ p))
       | None => inl (OtherException "'NoneType' object has no attribute 'encode'")
       end |}.

Definition alice : User :=
  {| user_id := 1; email := "alice@example.org"; password_hash := "toy$wonderland";
     language := Some "English"; interests := "Technology,Economy" |}.

Definition bob : User :=
  {| user_id := 2; email := "bob@example.org"; password_hash := "toy$builder";
     language := Some "Hindi"; interests := "Sports" |}.

(** Two accounts, nobody logged in; and the same with alice logged in. *)
Definition visitors_site : Site := {| users := [alice; bob]; session_user := None |}.

Definition alice_site : Site := {| users := [alice; bob]; session_user := Some 1 |}.

Definition carol_form : Form :=
  {| form_email := Some "carol@example.org"; form_password := Some "s3cret";
     form_language := None; form_interests := [] |}.

Definition alice_wrong_form : Form :=
  {| form_email := Some "alice@example.org"; form_password := Some "guess";
     form_language := None; form_interests := [] |}.

Definition article_C : Article :=
  {| art_title := Some "C";
     art_content := None;
     art_description := Some "Markets rallied";
     art_publishedAt := None |}.

Definition null_articles : Payload :=
  {| status := Some "ok"; message := Absent; articles := Null |}.

Definition hindi_form : Form :=
  {| form_email := None; form_password := None;
     form_language := Some "Hindi"; form_interests := ["Sports"; "Economy"] |}.

(** ** Floats *)

Lemma SFcompare_swap (x y : spec_float) :
  SFcompare y x = CompOpp <$> SFcompare x y.
Proof.
  destruct x as [sx|sx| |sx mx ex], y as [sy|sy| |sy my ey]; simpl;
    try reflexivity; try (destruct sx; reflexivity);
    try (destruct sy; reflexivity); try (destruct sx, sy; reflexivity).
  assert (Hm : Pos.compare_cont Eq my mx = CompOpp (Pos.compare_cont Eq mx my))
    by (rewrite Pos.compare_cont_antisym; reflexivity).
  destruct sx, sy; simpl; try reflexivity;
    rewrite (Z.compare_antisym ex ey), Hm;
    destruct (ex ?= ey)%Z; simpl; try reflexivity;
    destruct (Pos.compare_cont Eq mx my); reflexivity.
Qed.

(** A score that is [>= 0.95] is not [< 0.95]. *)
Lemma leb_not_ltb (x y : float) :
  PrimFloat.leb x y = true -> PrimFloat.ltb y x = false.
Proof.
  rewrite leb_spec, ltb_spec. unfold SFleb, SFltb.
  rewrite (SFcompare_swap (Prim2SF x) (Prim2SF y)).
  destruct (SFcompare (Prim2SF x) (Prim2SF y)) as [[]|]; simpl; congruence.
Qed.

(** ** Slices *)

Lemma slice_to_prefix (n : nat) (text : string) :
  String.prefix (slice_to n text) text = true.
Proof.
  revert text; induction n as [|n IH]; intros [|c rest]; simpl; try reflexivity.
  destruct (Ascii.ascii_dec c c) as [_|Hne]; [apply IH | contradiction].
Qed.

Lemma slice_to_length (n : nat) (text : string) :
  String.length (slice_to n text) = n `min` String.length text.
Proof.
  revert text; induction n as [|n IH]; intros [|c rest]; simpl; try reflexivity.
  by rewrite IH.
Qed.

Lemma slice_to_short (n : nat) (text : string) :
  String.length text <= n -> slice_to n text = text.
Proof.
  revert text; induction n as [|n IH]; intros [|c rest]; simpl; intros Hlen;
    try reflexivity; try lia.
  f_equal. apply IH. lia.
Qed.

(** From here on [text[:512]] stays folded. *)
Arguments slice_to : simpl never.

Arguments perform_nlp_analysis {_} text : simpl never.

(** ** The logging monad *)

Lemma trace_bind {A B} (m : W A) (k : A -> W B) :
  trace (W_bind m k) = trace m ++ trace (k (value m)).
Proof. reflexivity. Qed.

Lemma value_bind {A B} (m : W A) (k : A -> W B) :
  value (W_bind m k) = value (k (value m)).
Proof. reflexivity. Qed.

(** ** Entities *)

Lemma initial_entities_lookup (category : string) :
  initial_entities !! category =
  if bool_decide (category ∈ categories) then Some [] else None.
Proof.
  unfold initial_entities, categories.
  case_bool_decide as Hin.
  - apply elem_of_union in Hin as [Hin|Hin%elem_of_singleton];
      [apply elem_of_union in Hin as [Hin%elem_of_singleton|Hin%elem_of_singleton]|];
      subst category; reflexivity.
  - rewrite !lookup_insert_ne; [apply lookup_empty|..];
      intros <-; apply Hin; set_solver.
Qed.

Lemma initial_entities_dom : dom initial_entities = categories.
Proof.
  apply set_eq; intros category.
  rewrite elem_of_dom, initial_entities_lookup.
  case_bool_decide; split; intros Hx; try done; by destruct Hx.
Qed.

(** After the loop over [doc.ents], a category holds what it held before,
    then the texts of the entities of that category, in order; no category
    is added. *)
Lemma add_entities_lookup (spans : list Span)
    (entities : gmap string (list string)) (category : string) :
  fold_left add_entity spans entities !! category =
  (fun texts => texts ++ (ent_text <$> filter (fun ent => ent_label ent = category) spans))
    <$> entities !! category.
Proof.
  revert entities; induction spans as [|ent spans IH]; intros entities; simpl.
  - destruct (entities !! category); simpl; [by rewrite app_nil_r | done].
  - rewrite IH. unfold add_entity.
    destruct (decide (ent_label ent = category)) as [Heq|Hne].
    + rewrite filter_cons_True by done. subst category.
      destruct (entities !! ent_label ent) as [texts|] eqn:Hl.
      * rewrite lookup_insert_eq. simpl. by rewrite <- app_assoc.
      * by rewrite Hl.
    + rewrite filter_cons_False by done.
      destruct (entities !! ent_label ent) as [texts|] eqn:Hl; [|done].
      by rewrite lookup_insert_ne.
Qed.

Lemma list_of_set_NoDup (l : list string) : NoDup (list_of_set l).
Proof. unfold list_of_set. apply NoDup_elements. Qed.

Lemma list_of_set_elem (l : list string) (x : string) :
  x ∈ list_of_set l <-> x ∈ l.
Proof. unfold list_of_set. by rewrite elem_of_elements, elem_of_list_to_set. Qed.

(** The mapping computed from the entities [spans] of a document. *)
Lemma collected_lookup (spans : list Span) (category : string) :
  dedup_entities (fold_left add_entity spans initial_entities) !! category =
  if bool_decide (category ∈ categories)
  then Some (list_of_set (ent_text <$> filter (fun ent => ent_label ent = category) spans))
  else None.
Proof.
  unfold dedup_entities.
  rewrite lookup_fmap, add_entities_lookup, initial_entities_lookup.
  by case_bool_decide.
Qed.

Lemma collected_dom (spans : list Span) :
  dom (dedup_entities (fold_left add_entity spans initial_entities)) = categories.
Proof.
  apply set_eq; intros category.
  rewrite elem_of_dom, collected_lookup.
  case_bool_decide; split; intros Hx; try done; by destruct Hx.
Qed.

Section AnalyzerFacts.
Context `{Collaborators}.

Lemma sentiment_of_trace (text : string) :
  trace (sentiment_of text) = [CallSentiment (slice_to 512 text)].
Proof.
  unfold sentiment_of. rewrite trace_bind. simpl.
  destruct (sentiment_pipeline (slice_to 512 text)) as [e|[|r rest]]; try done.
  by destruct (PrimFloat.ltb (score r) threshold).
Qed.

Lemma sentiment_of_value (text : string) :
  value (sentiment_of text) =
  match sentiment_pipeline (slice_to 512 text) with
  | inr (sentiment_result :: _) =>
      if PrimFloat.ltb (score sentiment_result) threshold
      then {| label := "NEUTRAL"; score := score sentiment_result |}
      else sentiment_result
  | _ => UNKNOWN
  end.
Proof.
  unfold sentiment_of. rewrite value_bind. simpl.
  destruct (sentiment_pipeline (slice_to 512 text)) as [e|[|r rest]]; try done.
  by destruct (PrimFloat.ltb (score r) threshold).
Qed.

Lemma entities_of_trace (text : string) :
  trace (entities_of text) =
  match nlp_ner with Some _ => [CallNer text] | None => [] end.
Proof. unfold entities_of. by destruct nlp_ner. Qed.

Lemma entities_of_value (text : string) :
  value (entities_of text) =
  match nlp_ner with
  | Some ner => dedup_entities (fold_left add_entity (ner text) initial_entities)
  | None => initial_entities
  end.
Proof. unfold entities_of. by destruct nlp_ner. Qed.

Lemma perform_nlp_analysis_trace (text : string) :
  trace (perform_nlp_analysis text) =
  CallAnalyze text :: CallSentiment (slice_to 512 text) ::
    match nlp_ner with Some _ => [CallNer text] | None => [] end.
Proof.
  unfold perform_nlp_analysis.
  rewrite !trace_bind, sentiment_of_trace, entities_of_trace. simpl.
  by rewrite app_nil_r.
Qed.

Lemma perform_nlp_analysis_value (text : string) :
  value (perform_nlp_analysis text) =
  {| nlp_sentiment := value (sentiment_of text);
     nlp_entities := value (entities_of text) |}.
Proof. reflexivity. Qed.

Lemma analyzer_calls_analysis (text : string) :
  analyzer_calls (trace (perform_nlp_analysis text)) = [text].
Proof. rewrite perform_nlp_analysis_trace. simpl. by destruct nlp_ner. Qed.

Lemma entities_of_dom (text : string) : dom (value (entities_of text)) = categories.
Proof.
  rewrite entities_of_value.
  destruct nlp_ner; [apply collected_dom | apply initial_entities_dom].
Qed.

(** The list under a category: no duplicates, and exactly the texts of the
    entities the recognizer finds in [text] with that label. *)
Lemma entities_of_texts (text category : string) (texts : list string) :
  value (entities_of text) !! category = Some texts ->
  NoDup texts /\
  forall t, t ∈ texts <->
    exists ner ent, nlp_ner = Some ner /\ ent ∈ ner text /\
                    ent_text ent = t /\ ent_label ent = category.
Proof.
  rewrite entities_of_value.
  destruct nlp_ner as [ner|] eqn:Hner.
  - rewrite collected_lookup. case_bool_decide; [|done]. intros [= <-].
    split; [apply list_of_set_NoDup|]. intros t.
    rewrite list_of_set_elem, list_elem_of_fmap. split.
    + intros (ent & -> & [Hl Hin]%list_elem_of_filter). by exists ner, ent.
    + intros (ner' & ent & [= <-] & Hin & Ht & Hl). exists ent.
      split; [done|]. by apply list_elem_of_filter.
  - rewrite initial_entities_lookup. case_bool_decide; [|done]. intros [= <-].
    split; [constructor|]. intros t. split; [by intros ?%elem_of_nil|].
    by intros (ner & ent & Hcontra & _).
Qed.

End AnalyzerFacts.

(** ** The aggregator *)

Lemma resolve_content_nonempty (article_data : Article) :
  nonempty (resolve_content article_data) = has_text article_data.
Proof.
  unfold resolve_content, has_text, py_or.
  destruct article_data as [t [[|c s]|] [[|c' s']|] p]; reflexivity.
Qed.

(** [content] wins when it is a non-empty string. *)
Lemma resolve_content_content (article_data : Article) (content : string) :
  art_content article_data = Some content -> content <> "" ->
  resolve_content article_data = content.
Proof.
  unfold resolve_content, py_or. intros -> Hne.
  destruct content; [done | reflexivity].
Qed.

(** Otherwise the text is [description], or nothing. *)
Lemma resolve_content_description (article_data : Article) :
  truthy (art_content article_data) = false ->
  resolve_content article_data = py_or_empty (art_description article_data).
Proof. unfold resolve_content, py_or. by intros ->. Qed.

Lemma py_or_empty_truthy (v : option string) :
  truthy v = true -> v = Some (py_or_empty v).
Proof. destruct v as [[|c s]|]; done. Qed.

Lemma surviving_from_articles (i : nat) (news_data : list Article) :
  (surviving_from i news_data).*2 = filter (fun a => has_text a = true) news_data.
Proof.
  revert i; induction news_data as [|a l IH]; intros i; simpl; [done|].
  destruct (has_text a) eqn:Ha.
  - rewrite filter_cons_True by done. simpl. by rewrite IH.
  - rewrite filter_cons_False by congruence. apply IH.
Qed.

(** The [k]-th surviving article is the article at the index it carries,
    and [k] of the articles before it survive. *)
Lemma surviving_from_lookup (i : nat) (news_data : list Article)
    (k j : nat) (a : Article) :
  surviving_from i news_data !! k = Some (j, a) ->
  i <= j /\ news_data !! (j - i) = Some a /\ has_text a = true /\
  k = length (filter (fun a => has_text a = true) (take (j - i) news_data)).
Proof.
  revert i k; induction news_data as [|b l IH]; intros i k; simpl; [done|].
  destruct (has_text b) eqn:Hb.
  - destruct k as [|k]; simpl.
    + intros [= <- <-]. rewrite Nat.sub_diag. simpl. auto.
    + intros Hk. destruct (IH _ _ Hk) as (Hle & Hl & Ha & Hn).
      replace (j - i) with (S (j - S i)) by lia. simpl.
      rewrite filter_cons_True by done. simpl. split; [lia|]. auto.
  - intros Hk. destruct (IH _ _ Hk) as (Hle & Hl & Ha & Hn).
    replace (j - i) with (S (j - S i)) by lia. simpl.
    rewrite filter_cons_False by congruence. split; [lia|]. auto.
Qed.

Lemma surviving_from_elem (i : nat) (news_data : list Article) (j : nat) (a : Article) :
  (j, a) ∈ surviving_from i news_data <->
  i <= j /\ news_data !! (j - i) = Some a /\ has_text a = true.
Proof.
  split.
  - intros [k Hk]%list_elem_of_lookup.
    apply surviving_from_lookup in Hk. tauto.
  - revert i; induction news_data as [|b l IH]; intros i (Hle & Hl & Ha); [done|].
    simpl. destruct (decide (j = i)) as [->|Hne].
    + rewrite Nat.sub_diag in Hl. injection Hl as ->. rewrite Ha. left.
    + replace (j - i) with (S (j - S i)) in Hl by lia. simpl in Hl.
      assert ((j, a) ∈ surviving_from (S i) l) by (apply IH; split; [lia|done]).
      destruct (has_text b); [by right | done].
Qed.

Lemma filter_split_length {A} (P : A -> bool) (l : list A) :
  length (filter (fun a => P a = true) l) + length (filter (fun a => P a = false) l)
  = length l.
Proof.
  induction l as [|a l IH]; [done|].
  destruct (P a) eqn:Ha.
  - rewrite filter_cons_True, filter_cons_False by congruence. simpl. lia.
  - rewrite filter_cons_False, filter_cons_True by congruence. simpl. lia.
Qed.

Section AggregatorFacts.
Context `{Collaborators}.

Lemma process_loop_value (i : nat) (news_data : list Article)
    (analyzed_articles : list AnalyzedArticle) :
  value (process_loop i news_data analyzed_articles) =
  analyzed_articles ++ (emitted <$> surviving_from i news_data).
Proof.
  revert i analyzed_articles; induction news_data as [|a l IH];
    intros i analyzed_articles; simpl.
  - by rewrite app_nil_r.
  - rewrite resolve_content_nonempty. destruct (has_text a); simpl.
    + rewrite ?value_bind, IH, <- app_assoc. reflexivity.
    + apply IH.
Qed.

Lemma process_loop_trace (i : nat) (news_data : list Article)
    (analyzed_articles : list AnalyzedArticle) :
  trace (process_loop i news_data analyzed_articles) =
  mjoin ((fun ia => trace (perform_nlp_analysis (resolve_content ia.2)))
           <$> surviving_from i news_data).
Proof.
  revert i analyzed_articles; induction news_data as [|a l IH];
    intros i analyzed_articles; simpl.
  - reflexivity.
  - rewrite resolve_content_nonempty. destruct (has_text a); simpl.
    + rewrite ?trace_bind, IH. reflexivity.
    + apply IH.
Qed.

Lemma process_news_data_value (news_data : list Article) :
  value (process_news_data news_data) = emitted <$> surviving news_data.
Proof. unfold process_news_data. by rewrite process_loop_value. Qed.

Lemma analyzer_calls_app (l1 l2 : list event) :
  analyzer_calls (l1 ++ l2) = analyzer_calls l1 ++ analyzer_calls l2.
Proof. apply omap_app. Qed.

Lemma process_news_data_calls (news_data : list Article) :
  analyzer_calls (trace (process_news_data news_data)) =
  resolve_content <$> filter (fun a => has_text a = true) news_data.
Proof.
  unfold process_news_data. rewrite process_loop_trace.
  rewrite <- (surviving_from_articles 0).
  induction (surviving_from 0 news_data) as [|ia l IH]; [done|].
  rewrite !fmap_cons. change (mjoin (?x :: ?xs)) with (x ++ mjoin xs).
  by rewrite analyzer_calls_app, analyzer_calls_analysis, IH.
Qed.

Lemma http_requests_get (api_url : string) (log : list event) :
  http_requests (HttpGet api_url :: log) = api_url :: http_requests log.
Proof. reflexivity. Qed.

Lemma analyzer_calls_get (api_url : string) (log : list event) :
  analyzer_calls (HttpGet api_url :: log) = analyzer_calls log.
Proof. reflexivity. Qed.

Lemma http_requests_app (l1 l2 : list event) :
  http_requests (l1 ++ l2) = http_requests l1 ++ http_requests l2.
Proof. apply omap_app. Qed.

(** The aggregator makes no HTTP request. *)
Lemma process_news_data_requests (news_data : list Article) :
  http_requests (trace (process_news_data news_data)) = [].
Proof.
  unfold process_news_data. rewrite process_loop_trace.
  induction (surviving_from 0 news_data) as [|ia l IH]; [done|].
  rewrite fmap_cons. change (mjoin (?x :: ?xs)) with (x ++ mjoin xs).
  rewrite http_requests_app, IH, perform_nlp_analysis_trace.
  by destruct nlp_ner.
Qed.

End AggregatorFacts.

(** ** The handlers *)

Arguments process_news_data {_} news_data : simpl never.

Section HandlerFacts.
Context `{Collaborators}.

(** The case analysis of a handler's [try] block on the reply to [url]. *)
Ltac handler_step := unfold W_bind, W_ret, tell, trace, value; cbn [fst snd app].

Ltac handler_cases url :=
  unfold try_except, http_get, raise_for_status, of_outcome, M_bind, M_ret,
    raise, lift, expected_outcome, error_status;
  destruct (requests_get url) as [[msg|msg]|response]; handler_step;
    try reflexivity;
  destruct ((400 <=? status_code response) && (status_code response <? 600))%Z;
    handler_step; try reflexivity;
  destruct (json response) as [[msg|msg]|response_data]; handler_step;
    try reflexivity;
  destruct (decide (status response_data = Some "ok")) as [Hok|Hno];
    [ rewrite (bool_decide_eq_false_2 (status response_data ≠ Some "ok")) by tauto;
      rewrite (bool_decide_eq_true_2 _ Hok);
      destruct (articles response_data) as [| |news_data]; try reflexivity;
      cbn [get_default fst snd app]; by rewrite !app_nil_r
    | rewrite (bool_decide_eq_true_2 (status response_data ≠ Some "ok")) by done;
      rewrite (bool_decide_eq_false_2 _ Hno);
      destruct (message response_data); reflexivity ].

(** Both handlers request their URL once, then answer as the taxonomy says. *)
Lemma analyze_topic_outcome (request : Request) :
  analyze_topic request =
  (HttpGet (analyze_api_url request)
     :: trace (expected_outcome (requests_get (analyze_api_url request))),
   value (expected_outcome (requests_get (analyze_api_url request)))).
Proof.
  unfold analyze_topic. fold (analyze_api_url request).
  handler_cases (analyze_api_url request).
Qed.

Lemma latest_news_outcome :
  latest_news =
  (HttpGet latest_api_url :: trace (expected_outcome (requests_get latest_api_url)),
   value (expected_outcome (requests_get latest_api_url))).
Proof.
  unfold latest_news. fold latest_api_url.
  handler_cases latest_api_url.
Qed.

End HandlerFacts.

(** * The claims *)

Section AnalyzerClaims.
Context `{Collaborators}.

(** C2. When the classifier answers [text[:512]] with a first result whose
    score is strictly below 0.95, the sentiment label is NEUTRAL whatever the
    predicted label, and the score is the classifier's; when the score is
    0.95 or above (more generally, whenever it is not below 0.95), the
    classifier's result is returned unchanged. *)
Theorem low_confidence_is_neutral (text : string) (r : Sentiment) (rest : list Sentiment) :
  sentiment_pipeline (slice_to 512 text) = inr (r :: rest) ->
  score (nlp_sentiment (value (perform_nlp_analysis text))) = score r /\
  (PrimFloat.ltb (score r) 0.95 = true ->
     label (nlp_sentiment (value (perform_nlp_analysis text))) = "NEUTRAL") /\
  (PrimFloat.leb 0.95 (score r) = true ->
     nlp_sentiment (value (perform_nlp_analysis text)) = r) /\
  (PrimFloat.ltb (score r) 0.95 = false ->
     nlp_sentiment (value (perform_nlp_analysis text)) = r).
Proof.
  intros Hr. rewrite perform_nlp_analysis_value. cbn [nlp_sentiment].
  rewrite sentiment_of_value, Hr. fold threshold.
  assert (Hkeep : PrimFloat.ltb (score r) threshold = false ->
                  (if PrimFloat.ltb (score r) threshold
                   then {| label := "NEUTRAL"; score := score r |} else r) = r)
    by (by intros ->).
  split; [|split; [|split]].
  - by destruct (PrimFloat.ltb (score r) threshold).
  - by intros ->.
  - intros Hge. by apply Hkeep, leb_not_ltb.
  - exact Hkeep.
Qed.


(** C7. The classifier is called once, on [text[:512]], which is the prefix
    of [text] of length [min 512 (len text)], and the sentiment returned is
    the one decided from the classifier's answer on that slice: two texts
    with the same first 512 characters get the same sentiment. The
    recognizer, when loaded, is called once, on the whole [text], and the
    entity lists hold the texts of the entities it finds in the whole text. *)
Theorem classifier_input_truncated (text : string) :
  classifier_inputs (trace (perform_nlp_analysis text)) = [slice_to 512 text] /\
  String.prefix (slice_to 512 text) text = true /\
  String.length (slice_to 512 text) = 512 `min` String.length text /\
  recognizer_inputs (trace (perform_nlp_analysis text)) =
    match nlp_ner with Some _ => [text] | None => [] end /\
  nlp_sentiment (value (perform_nlp_analysis text)) =
    match sentiment_pipeline (slice_to 512 text) with
    | inr (r :: _) =>
        if PrimFloat.ltb (score r) 0.95
        then {| label := "NEUTRAL"; score := score r |} else r
    | _ => {| label := "UNKNOWN"; score := 0.0 |}
    end /\
  (forall other_text,
     slice_to 512 other_text = slice_to 512 text ->
     nlp_sentiment (value (perform_nlp_analysis other_text)) =
     nlp_sentiment (value (perform_nlp_analysis text))) /\
  (forall category texts,
     nlp_entities (value (perform_nlp_analysis text)) !! category = Some texts ->
     forall t, t ∈ texts <->
       exists ner ent, nlp_ner = Some ner /\ ent ∈ ner text /\
                       ent_text ent = t /\ ent_label ent = category).
Proof.
  split; [|split; [|split; [|split; [|split; [|split]]]]].
  - rewrite perform_nlp_analysis_trace. by destruct nlp_ner.
  - apply slice_to_prefix.
  - apply slice_to_length.
  - rewrite perform_nlp_analysis_trace. by destruct nlp_ner.
  - rewrite perform_nlp_analysis_value. apply sentiment_of_value.
  - intros other_text Hsame. rewrite !perform_nlp_analysis_value.
    cbn [nlp_sentiment]. by rewrite !sentiment_of_value, Hsame.
  - intros category texts Hl. rewrite perform_nlp_analysis_value in Hl.
    by apply entities_of_texts in Hl as [_ Hl].
Qed.

End AnalyzerClaims.

Section AggregatorClaims.
Context `{Collaborators}.

(** C1, as the code has it. The [id] of an output article is the 0-based
    index of its source article in the input list. The article's position in
    the output is the number of articles with text before it in the input,
    so its [id] is that position plus the number of articles skipped before
    it. *)
Theorem output_id_is_input_index (news_data : list Article) (k : nat) (o : AnalyzedArticle) :
  value (process_news_data news_data) !! k = Some o ->
  exists article_data,
    news_data !! out_id o = Some article_data /\
    has_text article_data = true /\
    out_content o = resolve_content article_data /\
    k = length (filter (fun a => has_text a = true) (take (out_id o) news_data)) /\
    out_id o =
      k + length (filter (fun a => has_text a = false) (take (out_id o) news_data)).
Proof.
  rewrite process_news_data_value, list_lookup_fmap.
  destruct (surviving news_data !! k) as [[j a]|] eqn:Hk; [|done].
  intros [= <-]. cbn [emitted out_id out_content fst snd].
  apply surviving_from_lookup in Hk as (_ & Hl & Ha & Hn).
  rewrite Nat.sub_0_r in Hl, Hn.
  exists a. repeat (split; [done|]).
  pose proof (filter_split_length has_text (take j news_data)) as Hsum.
  rewrite length_take_le in Hsum by (apply lookup_lt_Some in Hl; lia).
  lia.
Qed.

(** C3. The output holds one article per input article with usable text, in
    input order, and the analyzer is called on exactly their texts, in that
    order, never on an empty text. No output article comes from an input
    article whose [content] and [description] are both empty or absent. *)
Theorem textless_articles_skipped (news_data : list Article) :
  out_content <$> value (process_news_data news_data) =
    resolve_content <$> filter (fun a => has_text a = true) news_data /\
  out_title <$> value (process_news_data news_data) =
    art_title <$> filter (fun a => has_text a = true) news_data /\
  analyzer_calls (trace (process_news_data news_data)) =
    resolve_content <$> filter (fun a => has_text a = true) news_data /\
  Forall (fun text => text <> "") (analyzer_calls (trace (process_news_data news_data))) /\
  (forall i article_data,
     news_data !! i = Some article_data ->
     truthy (art_content article_data) = false ->
     truthy (art_description article_data) = false ->
     forall o, o ∈ value (process_news_data news_data) -> out_id o <> i).
Proof.
  rewrite process_news_data_calls, process_news_data_value.
  rewrite <- !(surviving_from_articles 0). fold (surviving news_data).
  split; [|split; [|split; [|split]]].
  - rewrite <- !list_fmap_compose. reflexivity.
  - rewrite <- !list_fmap_compose. reflexivity.
  - reflexivity.
  - rewrite <- list_fmap_compose. apply Forall_fmap, Forall_forall.
    intros [j a] Hin%surviving_from_elem. destruct Hin as (_ & _ & Ha). simpl.
    rewrite <- resolve_content_nonempty in Ha.
    by destruct (resolve_content a).
  - intros i a Hi Hc Hd o [[j b] [-> Hin]]%list_elem_of_fmap Hid.
    cbn [emitted out_id fst] in Hid. subst j.
    apply surviving_from_elem in Hin as (_ & Hl & Hb).
    rewrite Nat.sub_0_r in Hl. assert (b = a) as -> by congruence.
    unfold has_text in Hb. by rewrite Hc, Hd in Hb.
Qed.

(** C8. An article whose [content] is a non-empty string is analyzed and
    emitted with exactly that string as its text. The text of an output
    article differs from its source's [content] only when that [content] is
    empty or absent, and it is then the [description]. *)
Theorem content_before_description (news_data : list Article) (i : nat)
    (article_data : Article) :
  news_data !! i = Some article_data ->
  (forall content,
     art_content article_data = Some content -> content <> "" ->
     resolve_content article_data = content /\
     content ∈ analyzer_calls (trace (process_news_data news_data)) /\
     exists o, o ∈ value (process_news_data news_data) /\
               out_id o = i /\ out_content o = content) /\
  (forall o,
     o ∈ value (process_news_data news_data) -> out_id o = i ->
     out_content o = resolve_content article_data /\
     (art_content article_data = Some (out_content o) \/
      truthy (art_content article_data) = false /\
      art_description article_data = Some (out_content o))).
Proof.
  intros Hi. split.
  - intros content Hc Hne.
    pose proof (resolve_content_content _ _ Hc Hne) as Hres.
    assert (Ha : has_text article_data = true).
    { unfold has_text. rewrite Hc. by destruct content. }
    split; [done|]. split.
    + rewrite process_news_data_calls, <- Hres.
      apply list_elem_of_fmap_2, list_elem_of_filter. split; [done|].
      by apply list_elem_of_lookup_2 with i.
    + exists (emitted (i, article_data)). split; [|by split].
      rewrite process_news_data_value. apply list_elem_of_fmap_2.
      apply surviving_from_elem. rewrite Nat.sub_0_r. split; [lia|done].
  - intros o Hin Hid. rewrite process_news_data_value in Hin.
    apply list_elem_of_fmap in Hin as [[j b] [-> Hin]].
    cbn [emitted out_id out_content fst snd] in *. subst j.
    apply surviving_from_elem in Hin as (_ & Hl & Hb).
    rewrite Nat.sub_0_r in Hl. assert (b = article_data) as -> by congruence.
    split; [done|].
    destruct (truthy (art_content article_data)) eqn:Hc.
    + left. unfold resolve_content, py_or. rewrite Hc.
      by apply py_or_empty_truthy.
    + right. split; [done|]. rewrite resolve_content_description by done.
      apply py_or_empty_truthy. unfold has_text in Hb. by rewrite Hc in Hb.
Qed.

End AggregatorClaims.

Section HandlerClaims.
Context `{Collaborators}.

Lemma analyze_topic_value (request : Request) :
  value (analyze_topic request) =
  value (expected_outcome (requests_get (analyze_api_url request))).
Proof. by rewrite analyze_topic_outcome. Qed.

Lemma analyze_topic_trace (request : Request) :
  trace (analyze_topic request) =
  HttpGet (analyze_api_url request)
    :: trace (expected_outcome (requests_get (analyze_api_url request))).
Proof. by rewrite analyze_topic_outcome. Qed.

Lemma latest_news_value :
  value latest_news = value (expected_outcome (requests_get latest_api_url)).
Proof. by rewrite latest_news_outcome. Qed.

Lemma latest_news_trace :
  trace latest_news =
  HttpGet latest_api_url :: trace (expected_outcome (requests_get latest_api_url)).
Proof. by rewrite latest_news_outcome. Qed.

Lemma expected_outcome_replied (reply : exn + Response) (response_data : Payload) :
  replied reply response_data ->
  expected_outcome reply =
  if bool_decide (status response_data = Some "ok") then
    match articles response_data with
    | Absent => W_ret (JsonArticles [])
    | Present news_data =>
        (trace (process_news_data news_data),
         JsonArticles (value (process_news_data news_data)))
    | Null =>
        W_ret (JsonError 500
          "An internal server error occurred: 'NoneType' object is not iterable")
    end
  else
    match message response_data with
    | Absent => W_ret (JsonError 400 "News API Error: Unknown API error")
    | Null => W_ret (JsonError 400 "News API Error: None")
    | Present upstream => W_ret (JsonError 400 ("News API Error: " +:+ upstream))
    end.
Proof.
  intros (response & -> & Hcode & Hjson). unfold expected_outcome.
  by rewrite Hcode, Hjson.
Qed.

(** C4, as the code has it. When the news service answers with an HTTP status
    outside 400..599 and a payload whose status is not 'ok', [analyze_topic]
    answers 400 with the error "News API Error: " followed by the upstream
    message verbatim ("Unknown API error" when the payload has no message,
    "None" when the message is null), after the one HTTP request and without
    analyzing any article. A request
    that raises a [RequestException], and a response with an HTTP status in
    400..599, give 500 "Failed to connect to the news service: ..."; any
    other exception gives 500 "An internal server error occurred: ...". *)
Theorem upstream_rejection_is_client_error (request : Request) :
  (forall response_data,
     replied (requests_get (analyze_api_url request)) response_data ->
     status response_data <> Some "ok" ->
     trace (analyze_topic request) = [HttpGet (analyze_api_url request)] /\
     analyzer_calls (trace (analyze_topic request)) = [] /\
     (forall upstream,
        message response_data = Present upstream ->
        value (analyze_topic request) = JsonError 400 ("News API Error: " +:+ upstream)) /\
     (message response_data = Absent ->
        value (analyze_topic request) = JsonError 400 "News API Error: Unknown API error") /\
     (message response_data = Null ->
        value (analyze_topic request) = JsonError 400 "News API Error: None") /\
     value (analyze_topic request) =
       JsonError 400
         ("News API Error: " +:+
          match message response_data with
          | Present upstream => upstream
          | Absent => "Unknown API error"
          | Null => "None"
          end)) /\
  (forall msg,
     requests_get (analyze_api_url request) = inl (RequestException msg) ->
     value (analyze_topic request) =
       JsonError 500 ("Failed to connect to the news service: " +:+ msg)) /\
  (forall response,
     requests_get (analyze_api_url request) = inr response ->
     error_status (status_code response) = true ->
     value (analyze_topic request) =
       JsonError 500 ("Failed to connect to the news service: "
                        +:+ http_error_message response)) /\
  (forall msg,
     requests_get (analyze_api_url request) = inl (OtherException msg) ->
     value (analyze_topic request) =
       JsonError 500 ("An internal server error occurred: " +:+ msg)).
Proof.
  split; [|split; [|split]].
  - intros response_data Hreply Hno.
    rewrite analyze_topic_outcome, (expected_outcome_replied _ _ Hreply).
    rewrite (bool_decide_eq_false_2 _ Hno). unfold trace, value.
    split; [|split; [|split; [|split; [|split]]]].
    + by destruct (message response_data).
    + by destruct (message response_data).
    + by intros upstream ->.
    + by intros ->.
    + by intros ->.
    + by destruct (message response_data).
  - intros msg Hget. by rewrite analyze_topic_value, Hget.
  - intros response Hget Hcode. rewrite analyze_topic_value, Hget.
    unfold expected_outcome. by rewrite Hcode.
  - intros msg Hget. by rewrite analyze_topic_value, Hget.
Qed.

(** C6. The entity mapping of every analysis has exactly the keys PERSON,
    ORG and GPE. The list under a key has no duplicates, and its strings are
    the texts of the recognized entities labelled with that key: entities with
    another label are in no list. Without a recognizer the three lists are
    empty, and a request whose news-service reply is ok is answered with the
    analyzed articles, each with three empty lists. *)
Theorem entities_three_categories (text : string) :
  dom (nlp_entities (value (perform_nlp_analysis text))) = categories /\
  (forall category texts,
     nlp_entities (value (perform_nlp_analysis text)) !! category = Some texts ->
     NoDup texts /\
     forall t, t ∈ texts <->
       exists ner ent, nlp_ner = Some ner /\ ent ∈ ner text /\
                       ent_text ent = t /\ ent_label ent = category) /\
  (nlp_ner = None ->
   (forall category, category ∈ categories ->
      nlp_entities (value (perform_nlp_analysis text)) !! category = Some []) /\
   forall request response_data news_data,
     replied (requests_get (analyze_api_url request)) response_data ->
     status response_data = Some "ok" ->
     articles response_data = Present news_data ->
     exists analyzed_articles,
       value (analyze_topic request) = JsonArticles analyzed_articles /\
       length analyzed_articles =
         length (filter (fun a => has_text a = true) news_data) /\
       Forall (fun o => out_entities o = initial_entities) analyzed_articles).
Proof.
  rewrite perform_nlp_analysis_value. cbn [nlp_entities].
  split; [apply entities_of_dom|]. split.
  - intros category texts. rewrite entities_of_value.
    destruct nlp_ner as [ner|] eqn:Hner.
    + rewrite collected_lookup. case_bool_decide; [|done]. intros [= <-].
      split; [apply list_of_set_NoDup|]. intros t.
      rewrite list_of_set_elem, list_elem_of_fmap. split.
      * intros (ent & -> & [Hl Hin]%list_elem_of_filter). by exists ner, ent.
      * intros (ner' & ent & [= <-] & Hin & Ht & Hl). exists ent.
        split; [done|]. by apply list_elem_of_filter.
    + rewrite initial_entities_lookup. case_bool_decide; [|done]. intros [= <-].
      split; [constructor|]. intros t. split; [by intros ?%elem_of_nil|].
      by intros (ner & ent & Hcontra & _).
  - intros Hnone. split.
    + intros category Hin. rewrite entities_of_value, Hnone.
      rewrite initial_entities_lookup. by rewrite bool_decide_eq_true_2.
    + intros request response_data news_data Hreply Hok Harticles.
      exists (value (process_news_data news_data)).
      rewrite analyze_topic_value, (expected_outcome_replied _ _ Hreply).
      rewrite (bool_decide_eq_true_2 _ Hok), Harticles.
      split; [done|]. rewrite process_news_data_value. split.
      * rewrite length_fmap, <- (surviving_from_articles 0). by rewrite length_fmap.
      * apply Forall_fmap, Forall_forall. intros ia _.
        cbn [compose emitted out_entities].
        rewrite perform_nlp_analysis_value. cbn [nlp_entities].
        by rewrite entities_of_value, Hnone.
Qed.


(** C10. On the same reply of the news service, [analyze_topic] and
    [latest_news] give the same result and run the same analyses: each
    answers what the error taxonomy prescribes for that reply, after one
    HTTP request. On a reply that is ok and has no [articles] key, both
    answer the empty array. *)
Theorem handlers_agree (request : Request) :
  requests_get (analyze_api_url request) = requests_get latest_api_url ->
  value (analyze_topic request) = value latest_news /\
  value latest_news = value (expected_outcome (requests_get latest_api_url)) /\
  analyzer_calls (trace (analyze_topic request)) = analyzer_calls (trace latest_news) /\
  tail (trace (analyze_topic request)) = tail (trace latest_news) /\
  (forall response_data,
     replied (requests_get latest_api_url) response_data ->
     status response_data = Some "ok" ->
     articles response_data = Absent ->
     value (analyze_topic request) = JsonArticles [] /\
     value latest_news = JsonArticles []).
Proof.
  intros Hsame.
  rewrite analyze_topic_value, analyze_topic_trace, latest_news_value,
    latest_news_trace, Hsame.
  cbn [tail]. rewrite !analyzer_calls_get.
  split; [done|]. split; [done|]. split; [done|]. split; [done|].
  intros response_data Hreply Hok Hnone.
  rewrite (expected_outcome_replied _ _ Hreply), (bool_decide_eq_true_2 _ Hok), Hnone.
  by split.
Qed.

End HandlerClaims.

(** * Scenarios, witnesses and counterexamples *)

(** The scenarios of the specification. *)
Example scenario_confident :
  value (@process_news_data (positive_models 0.97) [article_A]) =
  [ {| out_id := 0; out_title := Some "A";
       out_content := "Great news for the economy";
       out_published_at := Some "2024-01-01";
       out_sentiment := {| label := "POSITIVE"; score := 0.97 |};
       out_entities := initial_entities |} ].
Proof. vm_compute. reflexivity. Qed.

Example scenario_lukewarm :
  out_sentiment <$> value (@process_news_data (positive_models 0.60) [article_A]) =
  [ {| label := "NEUTRAL"; score := 0.60 |} ].
Proof. vm_compute. reflexivity. Qed.

Example scenario_no_text :
  @process_news_data (positive_models 0.97) [article_B] = ([], []).
Proof. reflexivity. Qed.

Example scenario_quota_exceeded :
  value (@analyze_topic (rejecting_service 200) economy) =
  JsonError 400 "News API Error: quota exceeded".
Proof. vm_compute. reflexivity. Qed.

Example slice_to_example : slice_to 3 "abcdef" = "abc" /\ slice_to 512 "abc" = "abc".
Proof. split; reflexivity. Qed.

Example entities_example :
  nlp_entities (value (@perform_nlp_analysis failing_classifier "Bob is in Paris")) !! "GPE"
    = Some ["Paris"] /\
  nlp_entities (value (@perform_nlp_analysis failing_classifier "Bob is in Paris")) !! "DATE"
    = None.
Proof. split; vm_compute; reflexivity. Qed.

(** C1, as the specification states it, fails: after a skipped article the
    only output article has [id] 1 and position 0. *)
Lemma skipped_article_shifts_ids :
  out_id <$> value (@process_news_data (positive_models 0.97) [article_B; article_A]) = [1] /\
  ~ (forall (models : Collaborators) (news_data : list Article) (k : nat) (o : AnalyzedArticle),
       value (@process_news_data models news_data) !! k = Some o -> out_id o = k).
Proof.
  split; [vm_compute; reflexivity|].
  intros Hall.
  specialize (Hall (positive_models 0.97) [article_B; article_A] 0
                (@emitted (positive_models 0.97) (1, article_A)) eq_refl).
  discriminate Hall.
Qed.

Lemma output_id_is_input_index_witness :
  value (@process_news_data (positive_models 0.97) [article_B; article_A]) !! 0 =
    Some (@emitted (positive_models 0.97) (1, article_A)) /\
  exists article_data,
    [article_B; article_A] !! 1 = Some article_data /\
    has_text article_data = true /\
    "Great news for the economy" = resolve_content article_data /\
    0 = length (filter (fun a => has_text a = true) (take 1 [article_B; article_A])) /\
    1 = 0 + length (filter (fun a => has_text a = false) (take 1 [article_B; article_A])).
Proof.
  split; [reflexivity|].
  exact (@output_id_is_input_index (positive_models 0.97) [article_B; article_A] 0
           (@emitted (positive_models 0.97) (1, article_A)) eq_refl).
Defined.

Lemma low_confidence_is_neutral_witness :
  @sentiment_pipeline (positive_models 0.60) (slice_to 512 "Great news for the economy")
    = inr [POSITIVE 0.60] /\
  PrimFloat.ltb (score (POSITIVE 0.60)) 0.95 = true /\
  label (nlp_sentiment (value (@perform_nlp_analysis (positive_models 0.60)
                                 "Great news for the economy"))) = "NEUTRAL" /\
  score (nlp_sentiment (value (@perform_nlp_analysis (positive_models 0.60)
                                 "Great news for the economy"))) = 0.60%float.
Proof.
  split; [reflexivity|]. split; [reflexivity|].
  destruct (@low_confidence_is_neutral (positive_models 0.60)
              "Great news for the economy" (POSITIVE 0.60) [] eq_refl)
    as (Hscore & Hlow & _).
  split; [exact (Hlow eq_refl) | exact Hscore].
Defined.

Lemma textless_articles_skipped_witness :
  [article_B; article_A] !! 0 = Some article_B /\
  truthy (art_content article_B) = false /\
  truthy (art_description article_B) = false /\
  forall o,
    o ∈ value (@process_news_data (positive_models 0.97) [article_B; article_A]) ->
    out_id o <> 0.
Proof.
  split; [reflexivity|]. split; [reflexivity|]. split; [reflexivity|].
  destruct (@textless_articles_skipped (positive_models 0.97) [article_B; article_A])
    as (_ & _ & _ & _ & Hskip).
  exact (Hskip 0 article_B eq_refl eq_refl eq_refl).
Defined.

(** C4, as the specification states it, fails: a rejection that comes with
    the HTTP status 429 is answered 500, by the handler of
    [RequestException]. *)
Lemma rejection_with_error_status_is_500 :
  @requests_get (rejecting_service 429) (analyze_api_url economy)
    = inr {| status_code := 429; json := inr quota_exceeded |} /\
  status quota_exceeded <> Some "ok" /\
  value (@analyze_topic (rejecting_service 429) economy)
    = JsonError 500 "Failed to connect to the news service: Client Error" /\
  ~ (forall (models : Collaborators) (request : Request) (response : Response)
            (response_data : Payload),
       @requests_get models (analyze_api_url request) = inr response ->
       json response = inr response_data ->
       status response_data <> Some "ok" ->
       exists upstream,
         value (@analyze_topic models request)
           = JsonError 400 ("News API Error: " +:+ upstream)).
Proof.
  split; [reflexivity|]. split; [discriminate|].
  split; [vm_compute; reflexivity|].
  intros Hall.
  destruct (Hall (rejecting_service 429) economy
              {| status_code := 429; json := inr quota_exceeded |} quota_exceeded
              eq_refl eq_refl) as [upstream Hup]; [discriminate|].
  vm_compute in Hup. discriminate Hup.
Qed.

Lemma upstream_rejection_is_client_error_witness :
  replied (@requests_get (rejecting_service 200) (analyze_api_url economy)) quota_exceeded /\
  status quota_exceeded <> Some "ok" /\
  message quota_exceeded = Present "quota exceeded" /\
  value (@analyze_topic (rejecting_service 200) economy)
    = JsonError 400 ("News API Error: " +:+ "quota exceeded") /\
  analyzer_calls (trace (@analyze_topic (rejecting_service 200) economy)) = [].
Proof.
  assert (Hreply : replied (@requests_get (rejecting_service 200) (analyze_api_url economy))
                     quota_exceeded).
  { exists {| status_code := 200; json := inr quota_exceeded |}.
    split; [reflexivity|]. split; reflexivity. }
  assert (Hno : status quota_exceeded <> Some "ok") by discriminate.
  split; [exact Hreply|]. split; [exact Hno|]. split; [reflexivity|].
  destruct (@upstream_rejection_is_client_error (rejecting_service 200) economy)
    as (Hreject & _).
  destruct (Hreject quota_exceeded Hreply Hno) as (_ & Hcalls & Hmsg & _).
  split; [exact (Hmsg "quota exceeded" eq_refl) | exact Hcalls].
Defined.


Lemma classifier_input_truncated_witness :
  slice_to 512 (long_text +:+ " and more") = slice_to 512 long_text /\
  nlp_sentiment (value (@perform_nlp_analysis telling_models (long_text +:+ " and more")))
    = nlp_sentiment (value (@perform_nlp_analysis telling_models long_text)) /\
  nlp_sentiment (value (@perform_nlp_analysis telling_models (long_text +:+ " and more")))
    = {| label := "NEGATIVE"; score := 1.0 |} /\
  nlp_entities (value (@perform_nlp_analysis telling_models (long_text +:+ " and more")))
    !! "ORG" = Some [long_text +:+ " and more"].
Proof.
  assert (Hsame : slice_to 512 (long_text +:+ " and more") = slice_to 512 long_text)
    by (vm_compute; reflexivity).
  split; [exact Hsame|].
  destruct (@classifier_input_truncated telling_models long_text)
    as (_ & _ & _ & _ & _ & Hprefix & _).
  split; [exact (Hprefix (long_text +:+ " and more") Hsame)|].
  split; vm_compute; reflexivity.
Defined.

Lemma entities_three_categories_witness :
  @nlp_ner (answering_service two_articles) = None /\
  replied (@requests_get (answering_service two_articles) (analyze_api_url economy))
    two_articles /\
  exists analyzed_articles,
    value (@analyze_topic (answering_service two_articles) economy)
      = JsonArticles analyzed_articles /\
    length analyzed_articles
      = length (filter (fun a => has_text a = true) [article_B; article_A]) /\
    Forall (fun o => out_entities o = initial_entities) analyzed_articles.
Proof.
  assert (Hreply : replied (@requests_get (answering_service two_articles)
                              (analyze_api_url economy)) two_articles).
  { exists {| status_code := 200; json := inr two_articles |}.
    split; [reflexivity|]. split; reflexivity. }
  split; [reflexivity|]. split; [exact Hreply|].
  destruct (@entities_three_categories (answering_service two_articles) "any text")
    as (_ & _ & Hnone).
  destruct (Hnone eq_refl) as (_ & Hrequest).
  exact (Hrequest economy two_articles [article_B; article_A] Hreply eq_refl eq_refl).
Defined.

Lemma content_before_description_witness :
  [article_B; article_A] !! 1 = Some article_A /\
  art_content article_A = Some "Great news for the economy" /\
  resolve_content article_A = "Great news for the economy" /\
  "Great news for the economy"
    ∈ analyzer_calls (trace (@process_news_data (positive_models 0.97)
                               [article_B; article_A])) /\
  exists o,
    o ∈ value (@process_news_data (positive_models 0.97) [article_B; article_A]) /\
    out_id o = 1 /\ out_content o = "Great news for the economy".
Proof.
  split; [reflexivity|]. split; [reflexivity|].
  destruct (@content_before_description (positive_models 0.97)
              [article_B; article_A] 1 article_A eq_refl) as (Hcontent & _).
  apply (Hcontent "Great news for the economy" eq_refl). discriminate.
Defined.


Lemma handlers_agree_witness :
  @requests_get (answering_service two_articles) (analyze_api_url economy)
    = @requests_get (answering_service two_articles) latest_api_url /\
  value (@analyze_topic (answering_service two_articles) economy)
    = value (@latest_news (answering_service two_articles)) /\
  analyzer_calls (trace (@analyze_topic (answering_service two_articles) economy))
    = analyzer_calls (trace (@latest_news (answering_service two_articles))).
Proof.
  split; [reflexivity|].
  destruct (@handlers_agree (answering_service two_articles) economy eq_refl)
    as (Hvalue & _ & Hcalls & _).
  split; [exact Hvalue | exact Hcalls].
Defined.

Example handlers_agree_no_articles :
  value (@analyze_topic (answering_service no_articles) economy) = JsonArticles [] /\
  value (@latest_news (answering_service no_articles)) = JsonArticles [].
Proof. split; reflexivity. Qed.

(** * Further properties of the pipeline *)

(** ** The aggregator *)

Lemma surviving_from_shift (n i : nat) (news_data : list Article) :
  surviving_from (n + i) news_data =
  (fun ia => (n + ia.1, ia.2)) <$> surviving_from i news_data.
Proof.
  revert i; induction news_data as [|a l IH]; intros i; simpl; [done|].
  rewrite <- Nat.add_succ_r, IH. by destruct (has_text a).
Qed.

Lemma surviving_from_app (i : nat) (l1 l2 : list Article) :
  surviving_from i (l1 ++ l2) =
  surviving_from i l1 ++ surviving_from (length l1 + i) l2.
Proof.
  revert i; induction l1 as [|a l IH]; intros i; simpl; [done|].
  rewrite IH, <- Nat.add_succ_r. by destruct (has_text a).
Qed.

Lemma surviving_from_all (i : nat) (news_data : list Article) :
  Forall (fun a => has_text a = true) news_data ->
  (surviving_from i news_data).*1 = seq i (length news_data).
Proof.
  intros Hall; revert i; induction Hall as [|a l Ha _ IH]; intros i; simpl; [done|].
  rewrite Ha. simpl. by rewrite IH.
Qed.

Lemma count_take_mono {A} (P : A -> Prop) `{forall a, Decision (P a)}
    (l : list A) (m n : nat) :
  m <= n -> length (filter P (take m l)) <= length (filter P (take n l)).
Proof.
  intros Hle. replace m with (m `min` n) by lia.
  rewrite <- take_take.
  rewrite <- (take_drop m (take n l)) at 2.
  rewrite filter_app, length_app. lia.
Qed.

Section AggregatorMore.
Context `{Collaborators}.

Lemma emitted_shift (n : nat) (ia : nat * Article) :
  emitted (n + ia.1, ia.2) = shift_id n (emitted ia).
Proof. reflexivity. Qed.

Lemma process_news_data_trace (news_data : list Article) :
  trace (process_news_data news_data) =
  mjoin ((fun ia => trace (perform_nlp_analysis (resolve_content ia.2)))
           <$> surviving news_data).
Proof. unfold process_news_data. apply process_loop_trace. Qed.

(** Every [id] of the output is below the length of the input, and the
    [id]s grow strictly along the output: no two output articles share an
    [id]. *)
Theorem output_ids_increase (news_data : list Article) :
  (forall k o, value (process_news_data news_data) !! k = Some o ->
               out_id o < length news_data) /\
  (forall j k o1 o2,
     value (process_news_data news_data) !! j = Some o1 ->
     value (process_news_data news_data) !! k = Some o2 ->
     j < k -> out_id o1 < out_id o2) /\
  NoDup (out_id <$> value (process_news_data news_data)).
Proof.
  assert (Hbound : forall k o, value (process_news_data news_data) !! k = Some o ->
                               out_id o < length news_data).
  { intros k o. rewrite process_news_data_value, list_lookup_fmap.
    destruct (surviving news_data !! k) as [[i a]|] eqn:Hk; [|done].
    intros [= <-]. cbn [emitted out_id fst].
    apply surviving_from_lookup in Hk as (_ & Hl & _).
    rewrite Nat.sub_0_r in Hl. by apply lookup_lt_Some in Hl. }
  assert (Hgrow : forall j k o1 o2,
            value (process_news_data news_data) !! j = Some o1 ->
            value (process_news_data news_data) !! k = Some o2 ->
            j < k -> out_id o1 < out_id o2).
  { intros j k o1 o2. rewrite process_news_data_value, !list_lookup_fmap.
    destruct (surviving news_data !! j) as [[i1 a1]|] eqn:Hj; [|done].
    destruct (surviving news_data !! k) as [[i2 a2]|] eqn:Hk; [|done].
    intros [= <-] [= <-] Hlt. cbn [emitted out_id fst].
    apply surviving_from_lookup in Hj as (_ & _ & _ & Hn1).
    apply surviving_from_lookup in Hk as (_ & _ & _ & Hn2).
    rewrite Nat.sub_0_r in *.
    destruct (decide (i1 < i2)) as [|Hge]; [done|].
    pose proof (count_take_mono (fun a => has_text a = true) news_data i2 i1) as Hm.
    lia. }
  split; [exact Hbound|]. split; [exact Hgrow|].
  apply NoDup_alt. intros j k x Hj Hk.
  apply list_lookup_fmap_Some in Hj as (o1 & Hx1 & Ho1).
  apply list_lookup_fmap_Some in Hk as (o2 & Hx2 & Ho2).
  destruct (Nat.lt_trichotomy j k) as [Hlt|[Heq|Hgt]]; [|done|].
  - pose proof (Hgrow j k o1 o2 Ho1 Ho2 Hlt). lia.
  - pose proof (Hgrow k j o2 o1 Ho2 Ho1 Hgt). lia.
Qed.

(** When every input article has usable text nothing is skipped: the
    output has the [id]s 0, 1, ..., in order, one per input article. *)
Theorem ids_dense_without_skips (news_data : list Article) :
  (forall article_data, article_data ∈ news_data -> has_text article_data = true) ->
  out_id <$> value (process_news_data news_data) = seq 0 (length news_data).
Proof.
  intros Hall. rewrite process_news_data_value, <- list_fmap_compose.
  rewrite <- (surviving_from_all 0) by by apply Forall_forall.
  reflexivity.
Qed.

(** Processing a concatenation is processing the two parts one after the
    other: the outputs of the second part follow those of the first with
    their [id]s moved on by the length of the first part, and the calls made
    are those of the first part followed by those of the second. *)
Theorem process_news_data_app (l1 l2 : list Article) :
  value (process_news_data (l1 ++ l2)) =
    value (process_news_data l1)
      ++ (shift_id (length l1) <$> value (process_news_data l2)) /\
  trace (process_news_data (l1 ++ l2)) =
    trace (process_news_data l1) ++ trace (process_news_data l2).
Proof.
  rewrite !process_news_data_value, !process_news_data_trace. unfold surviving.
  rewrite surviving_from_app, surviving_from_shift, !fmap_app. split.
  - f_equal. rewrite <- !list_fmap_compose. reflexivity.
  - rewrite join_app, <- !list_fmap_compose. reflexivity.
Qed.

(** An article whose [content] is empty or absent and whose [description]
    is a non-empty string is analyzed and emitted with the description as
    its text. *)
Theorem description_fallback (news_data : list Article) (i : nat)
    (article_data : Article) (description : string) :
  news_data !! i = Some article_data ->
  truthy (art_content article_data) = false ->
  art_description article_data = Some description ->
  description <> "" ->
  description ∈ analyzer_calls (trace (process_news_data news_data)) /\
  exists o, o ∈ value (process_news_data news_data) /\
            out_id o = i /\ out_content o = description /\
            out_title o = art_title article_data.
Proof.
  intros Hi Hc Hd Hne.
  assert (Hres : resolve_content article_data = description).
  { rewrite resolve_content_description, Hd by done. by destruct description. }
  assert (Ha : has_text article_data = true).
  { unfold has_text. rewrite Hc, Hd. by destruct description. }
  split.
  - rewrite process_news_data_calls, <- Hres.
    apply list_elem_of_fmap_2, list_elem_of_filter. split; [done|].
    by apply list_elem_of_lookup_2 with i.
  - exists (emitted (i, article_data)). split; [|by repeat split].
    rewrite process_news_data_value. apply list_elem_of_fmap_2.
    apply surviving_from_elem. rewrite Nat.sub_0_r. split; [lia|done].
Qed.

(** Every output article is built from the input article at the index its
    [id] names, and from nothing else: title and timestamp are that
    article's, and the sentiment and the entities are those of an analysis
    of its own text. *)
Theorem output_article_from_own_source (news_data : list Article)
    (o : AnalyzedArticle) :
  o ∈ value (process_news_data news_data) ->
  exists article_data,
    news_data !! out_id o = Some article_data /\
    out_title o = art_title article_data /\
    out_published_at o = art_publishedAt article_data /\
    out_content o <> "" /\
    out_sentiment o = nlp_sentiment (value (perform_nlp_analysis (out_content o))) /\
    out_entities o = nlp_entities (value (perform_nlp_analysis (out_content o))).
Proof.
  rewrite process_news_data_value.
  intros [[j a] [-> Hin]]%list_elem_of_fmap.
  apply surviving_from_elem in Hin as (_ & Hl & Ha). rewrite Nat.sub_0_r in Hl.
  exists a. cbn [emitted out_id out_title out_published_at out_content
                 out_sentiment out_entities fst snd].
  repeat (split; [done|]). split; [|done].
  rewrite <- resolve_content_nonempty in Ha. by destruct (resolve_content a).
Qed.

End AggregatorMore.

(** ** The analyzer *)

Lemma slice_to_app (n : nat) (text extra : string) :
  n <= String.length text -> slice_to n (text +:+ extra) = slice_to n text.
Proof.
  revert text; induction n as [|n IH]; intros text Hlen; [reflexivity|].
  destruct text as [|c rest]; simpl in Hlen; [lia|].
  change (String c (slice_to n (rest +:+ extra)) = String c (slice_to n rest)).
  f_equal. apply IH. lia.
Qed.

Lemma replicate_char_length (n : nat) (c : Ascii.ascii) :
  String.length (replicate_char n c) = n.
Proof. induction n as [|n IH]; simpl; [done | by rewrite IH]. Qed.

Section AnalyzerMore.
Context `{Collaborators}.

(** Whatever follows the 512th character of a text has no influence on its
    sentiment. *)
Theorem sentiment_ignores_tail (text extra : string) :
  512 <= String.length text ->
  nlp_sentiment (value (perform_nlp_analysis (text +:+ extra))) =
  nlp_sentiment (value (perform_nlp_analysis text)).
Proof.
  intros Hlen. rewrite !perform_nlp_analysis_value. cbn [nlp_sentiment].
  by rewrite !sentiment_of_value, slice_to_app.
Qed.

(** A text of at most 512 characters reaches the classifier whole: the
    slice is the text itself, and the sentiment returned is the one decided
    from the classifier's answer on the whole text. *)
Theorem short_text_classified_whole (text : string) :
  String.length text <= 512 ->
  classifier_inputs (trace (perform_nlp_analysis text)) = [text] /\
  slice_to 512 text = text /\
  nlp_sentiment (value (perform_nlp_analysis text)) =
    match sentiment_pipeline text with
    | inr (r :: _) =>
        if PrimFloat.ltb (score r) 0.95
        then {| label := "NEUTRAL"; score := score r |} else r
    | _ => {| label := "UNKNOWN"; score := 0.0 |}
    end.
Proof.
  intros Hlen. split; [|split].
  - rewrite perform_nlp_analysis_trace, slice_to_short by done.
    by destruct nlp_ner.
  - by apply slice_to_short.
  - rewrite perform_nlp_analysis_value. cbn [nlp_sentiment].
    rewrite sentiment_of_value, slice_to_short by done. reflexivity.
Qed.

(** The sentiment UNKNOWN with score 0.0 marks a failed classifier call and
    nothing else: it is returned exactly when the call raised or returned an
    empty list of results. *)
Theorem unknown_iff_classifier_failed (text : string) :
  nlp_sentiment (value (perform_nlp_analysis text)) = UNKNOWN <->
  (exists e, sentiment_pipeline (slice_to 512 text) = inl e) \/
  sentiment_pipeline (slice_to 512 text) = inr [].
Proof.
  rewrite perform_nlp_analysis_value. cbn [nlp_sentiment].
  rewrite sentiment_of_value.
  destruct (sentiment_pipeline (slice_to 512 text)) as [e|[|r rest]].
  - split; [intros _; left; by exists e | done].
  - split; [intros _; by right | done].
  - split.
    + destruct (PrimFloat.ltb (score r) threshold) eqn:Hlt; [done|].
      intros ->. by vm_compute in Hlt.
    + by intros [[e He]|He].
Qed.

(** A label other than NEUTRAL and UNKNOWN is the label of the classifier's
    first result, and the classifier's score for it is not below 0.95: no
    low-confidence prediction is passed on. *)
Theorem predicted_label_is_confident (text : string) :
  label (nlp_sentiment (value (perform_nlp_analysis text))) <> "NEUTRAL" ->
  label (nlp_sentiment (value (perform_nlp_analysis text))) <> "UNKNOWN" ->
  exists r rest,
    sentiment_pipeline (slice_to 512 text) = inr (r :: rest) /\
    nlp_sentiment (value (perform_nlp_analysis text)) = r /\
    PrimFloat.ltb (score r) 0.95 = false.
Proof.
  rewrite perform_nlp_analysis_value. cbn [nlp_sentiment].
  rewrite sentiment_of_value.
  destruct (sentiment_pipeline (slice_to 512 text)) as [e|[|r rest]]; try done.
  fold threshold.
  destruct (PrimFloat.ltb (score r) threshold) eqn:Hlt; [done|].
  intros _ _. by exists r, rest.
Qed.

End AnalyzerMore.

(** ** The handlers *)

Section HandlerMore.
Context `{Collaborators}.

Lemma expected_outcome_requests (reply : exn + Response) :
  http_requests (trace (expected_outcome reply)) = [].
Proof.
  unfold expected_outcome.
  destruct reply as [[msg|msg]|response]; try reflexivity.
  destruct (error_status (status_code response)); [reflexivity|].
  destruct (json response) as [[msg|msg]|response_data]; try reflexivity.
  case_bool_decide.
  - destruct (articles response_data) as [| |news_data]; try reflexivity.
    apply process_news_data_requests.
  - by destruct (message response_data).
Qed.

Lemma expected_outcome_rejects_before_analysis (reply : exn + Response) :
  rejects_before_analysis (expected_outcome reply).
Proof.
  unfold rejects_before_analysis, expected_outcome.
  destruct reply as [[msg|msg]|response]; try by right.
  destruct (error_status (status_code response)); [by right|].
  destruct (json response) as [[msg|msg]|response_data]; try by right.
  case_bool_decide.
  - destruct (articles response_data) as [| |news_data]; [done | by right |].
    change (analyzer_calls (trace (process_news_data news_data)) =
            out_content <$> value (process_news_data news_data)).
    rewrite process_news_data_calls, process_news_data_value.
    rewrite <- (surviving_from_articles 0), <- !list_fmap_compose. reflexivity.
  - destruct (message response_data); by left.
Qed.

End HandlerMore.

Lemma rejects_before_analysis_after_get (api_url : string) (outcome : W HttpResult) :
  rejects_before_analysis outcome ->
  rejects_before_analysis (HttpGet api_url :: trace outcome, value outcome).
Proof.
  unfold rejects_before_analysis.
  change (value (HttpGet api_url :: trace outcome, value outcome)) with (value outcome).
  change (trace (HttpGet api_url :: trace outcome, value outcome))
    with (HttpGet api_url :: trace outcome).
  destruct (value outcome); by rewrite analyzer_calls_get.
Qed.

Section HandlerEdges.
Context `{Collaborators}.

Lemma analyze_topic_requests (request : Request) :
  http_requests (trace (analyze_topic request)) = [analyze_api_url request].
Proof.
  rewrite analyze_topic_outcome. unfold trace at 1. cbn [fst].
  by rewrite http_requests_get, expected_outcome_requests.
Qed.

Lemma latest_news_requests :
  http_requests (trace latest_news) = [latest_api_url].
Proof.
  rewrite latest_news_outcome. unfold trace at 1. cbn [fst].
  by rewrite http_requests_get, expected_outcome_requests.
Qed.

Lemma http_requests_ret {A} (a : A) : http_requests (trace (W_ret a)) = [].
Proof. reflexivity. Qed.

(** Each handler makes exactly one HTTP request, to its own URL, whatever
    the news service replies: nothing is retried. *)
Theorem one_request_per_call (request : Request) :
  http_requests (trace (analyze_topic request)) = [analyze_api_url request] /\
  http_requests (trace latest_news) = [latest_api_url].
Proof.
  split; [apply analyze_topic_requests | apply latest_news_requests].
Qed.

(** A handler answers 400 only before any analysis; its other error
    answers have the code 500; and when it answers with articles, the
    analyzer was called exactly once per article answered, on that article's
    text, in order. *)
Theorem handlers_reject_before_analysis (request : Request) :
  rejects_before_analysis (analyze_topic request) /\
  rejects_before_analysis latest_news.
Proof.
  rewrite analyze_topic_outcome, latest_news_outcome.
  split; apply rejects_before_analysis_after_get,
           expected_outcome_rejects_before_analysis.
Qed.

(** An ok payload whose [articles] is null is answered 500, by the handler
    of unexpected exceptions; an empty [articles] array is answered with the
    empty array. *)
Theorem null_articles_is_internal_error (request : Request) (response_data : Payload) :
  replied (requests_get (analyze_api_url request)) response_data ->
  status response_data = Some "ok" ->
  (articles response_data = Null ->
   analyze_topic request =
     ([HttpGet (analyze_api_url request)],
      JsonError 500
        "An internal server error occurred: 'NoneType' object is not iterable")) /\
  (articles response_data = Present [] ->
   analyze_topic request = ([HttpGet (analyze_api_url request)], JsonArticles [])).
Proof.
  intros Hreply Hok.
  rewrite analyze_topic_outcome, (expected_outcome_replied _ _ Hreply).
  rewrite (bool_decide_eq_true_2 _ Hok).
  split; by intros ->.
Qed.

End HandlerEdges.

(** ** Accounts *)


Lemma find_by_email_None (e : string) (table : list User) :
  find_by_email (Some e) table = None <-> e ∉ email <$> table.
Proof.
  unfold find_by_email. rewrite fmap_None, list_find_None, Forall_forall.
  rewrite list_elem_of_fmap. split.
  - intros Hall (u & -> & Hin). by apply (Hall u).
  - intros Hnot u Hin Heq. apply Hnot. by exists u.
Qed.

Lemma find_by_email_new (table : list User) (new_user : User) :
  email new_user ∉ email <$> table ->
  find_by_email (Some (email new_user)) (table ++ [new_user]) = Some new_user.
Proof.
  intros Hnew%find_by_email_None. unfold find_by_email in *.
  apply fmap_None in Hnew. rewrite list_find_app_r by done.
  simpl. by rewrite decide_True.
Qed.

Lemma next_id_fresh (table : list User) : next_id table ∉ user_id <$> table.
Proof.
  intros Hin%max_list_elem_of_le. unfold next_id in Hin. lia.
Qed.

Lemma load_user_new (table : list User) (new_user : User) :
  user_id new_user ∉ user_id <$> table ->
  load_user (user_id new_user) (table ++ [new_user]) = Some new_user.
Proof.
  intros Hnew. unfold load_user.
  assert (Hnone : list_find (fun u => user_id u = user_id new_user) table = None).
  { apply list_find_None, Forall_forall. intros u Hin Heq. apply Hnew.
    apply list_elem_of_fmap. by exists u. }
  rewrite list_find_app_r by done. simpl. by rewrite decide_True.
Qed.

Lemma load_user_update (uid : nat) (change : User -> User) (table : list User) :
  (forall u, user_id (change u) = user_id u) ->
  load_user uid (update_user uid change <$> table) = change <$> load_user uid table.
Proof.
  intros Hid. unfold load_user.
  induction table as [|u table IH]; [done|].
  rewrite fmap_cons. cbn [list_find].
  assert (Hupd : user_id (update_user uid change u) = user_id u)
    by (unfold update_user; case_bool_decide; [apply Hid | done]).
  rewrite Hupd. destruct (decide (user_id u = uid)) as [Hu|Hu].
  - simpl. unfold update_user. by rewrite bool_decide_eq_true_2.
  - destruct (list_find _ (update_user uid change <$> table)) as [[i v]|];
      destruct (list_find _ table) as [[j w]|]; simpl in *; congruence.
Qed.

Lemma update_user_fmap {B} (f : User -> B) (uid : nat) (change : User -> User)
    (table : list User) :
  (forall u, f (change u) = f u) ->
  f <$> (update_user uid change <$> table) = f <$> table.
Proof.
  intros Hf. rewrite <- list_fmap_compose. apply list_fmap_ext.
  intros i u _. unfold compose, update_user. by case_bool_decide.
Qed.

Section AccountProperties.
Context `{Hasher}.

(** No route breaks the table: when emails and ids are each distinct before
    a request to [register], [login], [logout] or [profile], they are
    distinct after it. *)
Theorem routes_keep_accounts_distinct (site : Site) (m : method) (form : Form) :
  distinct_accounts site ->
  distinct_accounts (site_after (register site m form)) /\
  distinct_accounts (site_after (login site m form)) /\
  distinct_accounts (site_after (logout site)) /\
  distinct_accounts (site_after (profile site m form)).
Proof.
  intros [Hemails Hids]. split; [|split; [|split]].
  - unfold register. destruct (current_user site); [done|].
    destruct m; [done|].
    destruct (find_by_email (form_email form) (users site)) eqn:Hfind; [done|].
    destruct (generate_password_hash (form_password form)) as [e|hashed]; [done|].
    destruct (form_email form) as [e|]; [|done].
    apply find_by_email_None in Hfind.
    split; cbn [site_after users]; rewrite fmap_app; apply NoDup_app.
    + split; [done|]. split; [|apply NoDup_singleton].
      intros x Hx ->%list_elem_of_singleton. done.
    + split; [done|]. split; [|apply NoDup_singleton].
      intros x Hx ->%list_elem_of_singleton. by apply next_id_fresh in Hx.
  - unfold login. destruct (current_user site); [done|].
    destruct m; [done|].
    destruct (find_by_email (form_email form) (users site)); [|done].
    by destruct (check_password_hash _ _) as [e|[|]].
  - unfold logout. by destruct (current_user site).
  - unfold profile. destruct (current_user site) as [user|]; [|done].
    destruct m; [done|].
    split; cbn [site_after users]; by rewrite update_user_fmap.
Qed.

(** A registration for an email that is already in the table changes
    nothing, whatever the password sent with it, and is answered with a
    warning and a redirect back to the registration page. *)
Theorem register_duplicate_rejected (site : Site) (form : Form) (e : string) :
  current_user site = None ->
  form_email form = Some e ->
  e ∈ email <$> users site ->
  register site POST form =
    {| site_after := site;
       flashed := [("Email address already registered.", "warning")];
       reply := Redirect "register" |}.
Proof.
  intros Hanon He Hin. unfold register. rewrite Hanon, He.
  destruct (find_by_email (Some e) (users site)) eqn:Hfind; [done|].
  by apply find_by_email_None in Hfind.
Qed.

(** A visitor who registers with a new email and a password the hasher
    accepts, then logs in with the same email and password, is logged in as
    the account just created, which has the default language and interests
    and stands last in the table. *)
Theorem register_then_login (site : Site) (form : Form) (e p hashed : string) :
  session_user site = None ->
  form_email form = Some e ->
  form_password form = Some p ->
  e ∉ email <$> users site ->
  generate_password_hash (Some p) = inr hashed ->
  check_password_hash hashed (Some p) = inr true ->
  reply (register site POST form) = Redirect "login" /\
  reply (login (site_after (register site POST form)) POST form)
    = Redirect "interactive_dashboard" /\
  exists account,
    current_user (site_after (login (site_after (register site POST form)) POST form))
      = Some account /\
    email account = e /\ password_hash account = hashed /\
    language account = Some "English" /\
    interests account = "Technology,Economy" /\
    users (site_after (login (site_after (register site POST form)) POST form))
      = users site ++ [account].
Proof.
  intros Hsession He Hp Hnew Hgen Hcheck.
  set (account := {| user_id := next_id (users site); email := e;
                     password_hash := hashed; language := Some "English";
                     interests := "Technology,Economy" |}).
  assert (Hregister : register site POST form =
            {| site_after := {| users := users site ++ [account];
                                session_user := None |};
               flashed := [("Registration successful! Please log in.", "success")];
               reply := Redirect "login" |}).
  { unfold register, current_user. rewrite Hsession, He, Hp, Hgen.
    by rewrite (proj2 (find_by_email_None e (users site)) Hnew). }
  rewrite Hregister. cbn [reply site_after].
  assert (Hlogin : login {| users := users site ++ [account]; session_user := None |}
                     POST form =
            {| site_after := {| users := users site ++ [account];
                                session_user := Some (user_id account) |};
               flashed := [];
               reply := Redirect "interactive_dashboard" |}).
  { unfold login, current_user. cbn [session_user users]. rewrite He, Hp.
    rewrite (find_by_email_new (users site) account Hnew
               : find_by_email (Some e) _ = _).
    cbn [password_hash account]. by rewrite Hcheck. }
  rewrite Hlogin. cbn [reply site_after].
  split; [done|]. split; [done|]. exists account.
  split; [|done]. unfold current_user. cbn [session_user users].
  apply load_user_new, next_id_fresh.
Qed.


End AccountProperties.

Lemma profile_update_current (site : Site) (form : Form) (user : User) :
  current_user site = Some user ->
  current_user (site_after (profile site POST form)) =
    Some {| user_id := user_id user; email := email user;
            password_hash := password_hash user;
            language := form_language form;
            interests := String.concat "," (form_interests form) |}.
Proof.
  intros Hcur. unfold profile. rewrite Hcur. cbn [site_after].
  unfold current_user in *. cbn [session_user users].
  destruct (session_user site) as [uid|]; [|done].
  assert (Huid : user_id user = uid).
  { unfold load_user in Hcur.
    destruct (list_find _ (users site)) as [[i v]|] eqn:Hfind; [|done].
    injection Hcur as ->. by apply list_find_Some in Hfind as (_ & Hid & _). }
  subst uid. rewrite load_user_update, Hcur by done. reflexivity.
Qed.

(** After [logout] nobody is logged in, whoever was: the table is as
    before, and [profile], [logout] and both API routes answer as
    [login_required] does, without any request to the news service and
    without any analysis. *)
Theorem logout_closes_session `{Collaborators} (site : Site) (m : method)
    (form : Form) (keyword_arg : option string) :
  current_user (site_after (logout site)) = None /\
  users (site_after (logout site)) = users site /\
  profile (site_after (logout site)) m form =
    {| site_after := site_after (logout site); flashed := []; reply := Unauthorized |} /\
  reply (logout (site_after (logout site))) = Unauthorized /\
  api_analyze (site_after (logout site)) keyword_arg = ([], ApiUnauthorized) /\
  api_latest (site_after (logout site)) = ([], ApiUnauthorized).
Proof.
  assert (Hnone : current_user (site_after (logout site)) = None).
  { unfold logout. by destruct (current_user site) eqn:Hcur. }
  split; [done|]. split; [unfold logout; by destruct (current_user site)|].
  assert (Hagain : reply (logout (site_after (logout site))) = Unauthorized).
  { generalize dependent (site_after (logout site)). intros site' Hnone'.
    unfold logout. by rewrite Hnone'. }
  unfold profile, api_analyze, api_latest. by rewrite Hnone.
Qed.

(** A profile update writes the two preferences of the logged-in account
    and nothing else: the session, and the ids, emails and password hashes
    of all accounts, are as before, every other account is untouched, and
    the logged-in account now has the language sent and the interests sent,
    joined by commas. *)
Theorem profile_changes_only_preferences (site : Site) (form : Form) (user : User) :
  current_user site = Some user ->
  session_user (site_after (profile site POST form)) = session_user site /\
  user_id <$> users (site_after (profile site POST form)) = user_id <$> users site /\
  email <$> users (site_after (profile site POST form)) = email <$> users site /\
  password_hash <$> users (site_after (profile site POST form))
    = password_hash <$> users site /\
  (forall i other, users site !! i = Some other -> user_id other <> user_id user ->
     users (site_after (profile site POST form)) !! i = Some other) /\
  current_user (site_after (profile site POST form)) =
    Some {| user_id := user_id user; email := email user;
            password_hash := password_hash user;
            language := form_language form;
            interests := String.concat "," (form_interests form) |}.
Proof.
  intros Hcur. unfold profile. rewrite Hcur. cbn [site_after users session_user].
  split; [done|]. repeat (split; [by rewrite update_user_fmap|]). split.
  - intros i other Hi Hne. rewrite list_lookup_fmap, Hi. simpl.
    unfold update_user. by rewrite bool_decide_eq_false_2.
  - pose proof (profile_update_current site form user Hcur) as Hupd.
    unfold profile in Hupd. by rewrite Hcur in Hupd.
Qed.

(** The language of the news query follows the profile: after a profile
    update, [/api/analyze] asks for Hindi news exactly when the language
    sent was 'Hindi', spelled so, and for English news otherwise;
    [/api/latest] asks for English news whatever the profile says. *)
Theorem language_preference_drives_query `{Collaborators} (site : Site) (form : Form)
    (user : User) (keyword_arg : option string) :
  current_user site = Some user ->
  http_requests (trace (api_analyze (site_after (profile site POST form)) keyword_arg)) =
    [ "https://newsapi.org/v2/everything?apiKey=Enter Your API Here&q="
        +:+ default "default topic" keyword_arg +:+ "&language="
        +:+ (if bool_decide (form_language form = Some "Hindi") then "hi" else "en") ] /\
  http_requests (trace (api_latest (site_after (profile site POST form)))) =
    [ "https://newsapi.org/v2/everything?apiKey=Enter Your API Here&q=news&language=en&sortBy=publishedAt" ].
Proof.
  intros Hcur.
  pose proof (profile_update_current site form user Hcur) as Hupd.
  unfold api_analyze, api_latest. rewrite Hupd, !trace_bind.
  rewrite !http_requests_app, !http_requests_ret, !app_nil_r.
  rewrite analyze_topic_requests, latest_news_requests.
  split; reflexivity.
Qed.

(** * Witnesses of the further properties *)

Lemma output_ids_increase_witness :
  value (@process_news_data (positive_models 0.97) [article_A; article_B; article_C]) !! 0
    = Some (@emitted (positive_models 0.97) (0, article_A)) /\
  value (@process_news_data (positive_models 0.97) [article_A; article_B; article_C]) !! 1
    = Some (@emitted (positive_models 0.97) (2, article_C)) /\
  0 < 2 /\ 2 < 3.
Proof.
  split; [reflexivity|]. split; [reflexivity|].
  destruct (@output_ids_increase (positive_models 0.97)
              [article_A; article_B; article_C]) as (Hbound & Hgrow & _).
  split.
  - exact (Hgrow 0 1 (@emitted (positive_models 0.97) (0, article_A))
             (@emitted (positive_models 0.97) (2, article_C))
             eq_refl eq_refl (le_n 1)).
  - exact (Hbound 1 (@emitted (positive_models 0.97) (2, article_C)) eq_refl).
Defined.

Lemma ids_dense_without_skips_witness :
  (forall article_data, article_data ∈ [article_A; article_C] ->
                        has_text article_data = true) /\
  out_id <$> value (@process_news_data (positive_models 0.97) [article_A; article_C])
    = [0; 1].
Proof.
  assert (Hall : forall article_data, article_data ∈ [article_A; article_C] ->
                                      has_text article_data = true).
  { intros a Ha. apply list_elem_of_In in Ha. simpl in Ha.
    destruct Ha as [<-|[<-|[]]]; reflexivity. }
  split; [exact Hall|].
  exact (@ids_dense_without_skips (positive_models 0.97) [article_A; article_C] Hall).
Defined.

Lemma description_fallback_witness :
  [article_B; article_C] !! 1 = Some article_C /\
  truthy (art_content article_C) = false /\
  art_description article_C = Some "Markets rallied" /\
  "Markets rallied"
    ∈ analyzer_calls (trace (@process_news_data (positive_models 0.97)
                               [article_B; article_C])) /\
  exists o,
    o ∈ value (@process_news_data (positive_models 0.97) [article_B; article_C]) /\
    out_id o = 1 /\ out_content o = "Markets rallied" /\ out_title o = Some "C".
Proof.
  split; [reflexivity|]. split; [reflexivity|]. split; [reflexivity|].
  apply (@description_fallback (positive_models 0.97) [article_B; article_C] 1
           article_C "Markets rallied" eq_refl eq_refl eq_refl).
  discriminate.
Defined.

Lemma output_article_from_own_source_witness :
  @emitted (positive_models 0.97) (1, article_C)
    ∈ value (@process_news_data (positive_models 0.97) [article_B; article_C]) /\
  exists article_data,
    [article_B; article_C] !! 1 = Some article_data /\
    Some "C" = art_title article_data /\
    None = art_publishedAt article_data /\
    "Markets rallied" <> "" /\
    out_sentiment (@emitted (positive_models 0.97) (1, article_C)) =
      nlp_sentiment (value (@perform_nlp_analysis (positive_models 0.97) "Markets rallied")) /\
    out_entities (@emitted (positive_models 0.97) (1, article_C)) =
      nlp_entities (value (@perform_nlp_analysis (positive_models 0.97) "Markets rallied")).
Proof.
  assert (Hin : @emitted (positive_models 0.97) (1, article_C)
                  ∈ value (@process_news_data (positive_models 0.97)
                             [article_B; article_C])).
  { apply list_elem_of_In. left. reflexivity. }
  split; [exact Hin|].
  exact (@output_article_from_own_source (positive_models 0.97)
           [article_B; article_C] _ Hin).
Defined.

Lemma sentiment_ignores_tail_witness :
  512 <= String.length long_text /\
  nlp_sentiment (value (@perform_nlp_analysis (positive_models 0.97)
                          (long_text +:+ " and more"))) =
  nlp_sentiment (value (@perform_nlp_analysis (positive_models 0.97)
                          long_text)).
Proof.
  assert (Hlen : 512 <= String.length long_text)
    by (unfold long_text; rewrite replicate_char_length; apply le_n).
  split; [exact Hlen|].
  exact (@sentiment_ignores_tail (positive_models 0.97) long_text " and more" Hlen).
Defined.

Lemma short_text_classified_whole_witness :
  String.length "Markets rallied" <= 512 /\
  classifier_inputs (trace (@perform_nlp_analysis telling_models "Markets rallied"))
    = ["Markets rallied"] /\
  nlp_sentiment (value (@perform_nlp_analysis telling_models "Markets rallied"))
    = {| label := "NEGATIVE"; score := 1.0 |}.
Proof.
  assert (Hlen : String.length "Markets rallied" <= 512) by (simpl; lia).
  split; [exact Hlen|].
  destruct (@short_text_classified_whole telling_models "Markets rallied" Hlen)
    as (Hinputs & _ & Hsentiment).
  split; [exact Hinputs | exact Hsentiment].
Defined.

Lemma predicted_label_is_confident_witness :
  label (nlp_sentiment (value (@perform_nlp_analysis (positive_models 0.97)
                                 "Markets rallied"))) = "POSITIVE" /\
  exists r rest,
    @sentiment_pipeline (positive_models 0.97) (slice_to 512 "Markets rallied")
      = inr (r :: rest) /\
    nlp_sentiment (value (@perform_nlp_analysis (positive_models 0.97) "Markets rallied"))
      = r /\
    PrimFloat.ltb (score r) 0.95 = false.
Proof.
  split; [reflexivity|].
  apply (@predicted_label_is_confident (positive_models 0.97) "Markets rallied");
    discriminate.
Defined.

Lemma null_articles_is_internal_error_witness :
  replied (@requests_get (answering_service null_articles) (analyze_api_url economy))
    null_articles /\
  status null_articles = Some "ok" /\
  articles null_articles = Null /\
  value (@analyze_topic (answering_service null_articles) economy) =
    JsonError 500 "An internal server error occurred: 'NoneType' object is not iterable".
Proof.
  assert (Hreply : replied (@requests_get (answering_service null_articles)
                              (analyze_api_url economy)) null_articles).
  { exists {| status_code := 200; json := inr null_articles |}.
    split; [reflexivity|]. split; reflexivity. }
  split; [exact Hreply|]. split; [reflexivity|]. split; [reflexivity|].
  destruct (@null_articles_is_internal_error (answering_service null_articles)
              economy null_articles Hreply eq_refl) as (Hnull & _).
  rewrite (Hnull eq_refl). reflexivity.
Defined.

Lemma visitors_site_distinct : distinct_accounts visitors_site.
Proof.
  split; simpl;
    repeat (apply NoDup_cons_2;
            [intros Hin; apply list_elem_of_In in Hin; simpl in Hin;
             intuition discriminate|]);
    apply NoDup_nil_2.
Qed.

Lemma routes_keep_accounts_distinct_witness :
  distinct_accounts visitors_site /\
  distinct_accounts (site_after (@register toy_hasher visitors_site POST carol_form)) /\
  email <$> users (site_after (@register toy_hasher visitors_site POST carol_form))
    = ["alice@example.org"; "bob@example.org"; "carol@example.org"].
Proof.
  split; [exact visitors_site_distinct|].
  destruct (@routes_keep_accounts_distinct toy_hasher visitors_site POST carol_form
              visitors_site_distinct) as (Hregister & _).
  split; [exact Hregister | reflexivity].
Defined.

Lemma register_duplicate_rejected_witness :
  current_user visitors_site = None /\
  form_email alice_wrong_form = Some "alice@example.org" /\
  "alice@example.org" ∈ email <$> users visitors_site /\
  @register toy_hasher visitors_site POST alice_wrong_form =
    {| site_after := visitors_site;
       flashed := [("Email address already registered.", "warning")];
       reply := Redirect "register" |}.
Proof.
  assert (Hin : "alice@example.org" ∈ email <$> users visitors_site)
    by (apply list_elem_of_In; left; reflexivity).
  split; [reflexivity|]. split; [reflexivity|]. split; [exact Hin|].
  exact (@register_duplicate_rejected toy_hasher visitors_site alice_wrong_form
           "alice@example.org" eq_refl eq_refl Hin).
Defined.

Lemma register_then_login_witness :
  ("carol@example.org" ∉ email <$> users visitors_site) /\
  @generate_password_hash toy_hasher (Some "s3cret") = inr "toy$s3cret" /\
  @check_password_hash toy_hasher "toy$s3cret" (Some "s3cret") = inr true /\
  reply (@register toy_hasher visitors_site POST carol_form) = Redirect "login" /\
  reply (@login toy_hasher (site_after (@register toy_hasher visitors_site POST carol_form))
           POST carol_form) = Redirect "interactive_dashboard".
Proof.
  assert (Hnew : "carol@example.org" ∉ email <$> users visitors_site).
  { intros Hin. apply list_elem_of_In in Hin. simpl in Hin.
    destruct Hin as [Heq|[Heq|[]]]; discriminate Heq. }
  split; [exact Hnew|]. split; [reflexivity|]. split; [reflexivity|].
  destruct (@register_then_login toy_hasher visitors_site carol_form
              "carol@example.org" "s3cret" "toy$s3cret"
              eq_refl eq_refl eq_refl Hnew eq_refl eq_refl) as (Hregister & Hlogin & _).
  split; [exact Hregister | exact Hlogin].
Defined.


Lemma profile_changes_only_preferences_witness :
  current_user alice_site = Some alice /\
  current_user (site_after (profile alice_site POST hindi_form)) =
    Some {| user_id := 1; email := "alice@example.org";
            password_hash := "toy$wonderland";
            language := Some "Hindi"; interests := "Sports,Economy" |} /\
  users (site_after (profile alice_site POST hindi_form)) !! 1 = Some bob.
Proof.
  split; [reflexivity|].
  destruct (profile_changes_only_preferences alice_site hindi_form alice eq_refl)
    as (_ & _ & _ & _ & Hothers & Hcurrent).
  split; [exact Hcurrent|].
  apply (Hothers 1 bob eq_refl). discriminate.
Defined.

Lemma language_preference_drives_query_witness :
  current_user alice_site = Some alice /\
  http_requests (trace (@api_analyze (answering_service two_articles)
                          (site_after (profile alice_site POST hindi_form))
                          (Some "cricket"))) =
    [ "https://newsapi.org/v2/everything?apiKey=Enter Your API Here&q=cricket&language=hi" ].
Proof.
  split; [reflexivity|].
  destruct (@language_preference_drives_query (answering_service two_articles)
              alice_site hindi_form alice (Some "cricket") eq_refl) as (Hanalyze & _).
  exact Hanalyze.
Defined.
